(** * simple-apt-update: the process runner and the output poller of app.py

    A shallow embedding of [UpdateWindow] from
    usr/share/simple-apt-update/app.py: the rendering helpers, [execute],
    the worker loop [run], the timer callback [update_buffer] and the three
    command methods, followed by the properties of the specification that
    concern them.

    Python [str] values are modelled by [string]; a character is a code
    point below 256.  On that range [\d] matches exactly the ten characters
    0..9 and [str.rstrip()] removes the characters recognised by [isspace]
    below. *)

From Stdlib Require Import ZArith List String Ascii Bool Lia.
From Stdlib Require Import Decimal DecimalString DecimalZ DecimalN DecimalPos.
Import ListNotations.

Open Scope string_scope.
Open Scope list_scope.
Open Scope Z_scope.

(** ** Python strings *)

Module PyStr.

(** The double quote character, code point 34. *)
Definition dquote : string := String (ascii_of_nat 34) EmptyString.

(** The line feed character, code point 10. *)
Definition newline : string := String (ascii_of_nat 10) EmptyString.

(** [str.isspace] on one character below code point 256. *)
Definition isspace (c : ascii) : bool :=
  let n := nat_of_ascii c in
  (((9 <=? n) && (n <=? 13)) || ((28 <=? n) && (n <=? 32))
   || (n =? 133) || (n =? 160))%nat.

(** [s.rstrip()]: trailing whitespace removed. *)
Fixpoint rstrip (s : string) : string :=
  match s with
  | EmptyString => EmptyString
  | String c s' =>
      match rstrip s' with
      | EmptyString => if isspace c then EmptyString else String c EmptyString
      | r => String c r
      end
  end.

(** [sep.join(xs)]. *)
Fixpoint join (sep : string) (xs : list string) : string :=
  match xs with
  | [] => EmptyString
  | [x] => x
  | x :: rest => (x ++ sep ++ join sep rest)%string
  end.

(** ["%d" % n]. *)
Definition format_d (n : Z) : string := NilZero.string_of_int (Z.to_int n).

(** [\d] on one character. *)
Definition isdecimal (c : ascii) : bool :=
  let n := nat_of_ascii c in ((48 <=? n) && (n <=? 57))%nat.

(** [\d+] against a whole string. *)
Fixpoint all_decimal (s : string) : bool :=
  match s with
  | EmptyString => true
  | String c s' => isdecimal c && all_decimal s'
  end.

(** [s[len(prefix):]] when [s.startswith(prefix)]. *)
Fixpoint strip_prefix (prefix s : string) : option string :=
  match prefix, s with
  | EmptyString, _ => Some s
  | String a p', String b s' =>
      if Ascii.eqb a b then strip_prefix p' s' else None
  | String _ _, EmptyString => None
  end.

(** [int(s)] for a string of decimal digits; [None] stands for
    ValueError.  Integers are unbounded; the limit recent CPython puts on
    the number of digits [int] accepts is not modelled. *)
Definition int (s : string) : option Z :=
  option_map Z.of_uint (NilZero.uint_of_string s).

(** [html.escape(s)] with its default [quote=True]. *)
Fixpoint html_escape (s : string) : string :=
  match s with
  | EmptyString => EmptyString
  | String c s' =>
      let rest := html_escape s' in
      match nat_of_ascii c with
      | 38%nat => ("&amp;" ++ rest)%string
      | 60%nat => ("&lt;" ++ rest)%string
      | 62%nat => ("&gt;" ++ rest)%string
      | 34%nat => ("&quot;" ++ rest)%string
      | 39%nat => ("&#x27;" ++ rest)%string
      | _ => String c rest
      end
  end.

End PyStr.

Import PyStr.

(** [re.fullmatch(r'EXIT (\d+)', text)]: the text of group 1 on a match,
    [None] otherwise. *)
Definition fullmatch_EXIT (text : string) : option string :=
  match strip_prefix "EXIT " text with
  | Some digits =>
      match digits with
      | EmptyString => None
      | _ => if all_decimal digits then Some digits else None
      end
  | None => None
  end.

(** ** The text buffer and the window *)

(** What [Gtk.TextBuffer] has been given, in buffer order: the markup
    strings of [insert_markup] and the plain strings of [insert]. *)
Inductive piece : Type :=
| Markup (markup : string)
| Plain (text : string).

Record UpdateWindow : Type := mkWindow {
  buffer : list piece;
  output_msg : option string;
  empty_msg : option string;
  ignore_stderr : bool;
  stdout : string;
  stderr : string;
  stdout_queue : list string;
  stderr_queue : list string;
  update_button : bool;
  upgrade_button : bool;
  list_button : bool;
  spinner : bool
}.

Definition set_buffer (b : list piece) (w : UpdateWindow) : UpdateWindow :=
  mkWindow b (output_msg w) (empty_msg w) (ignore_stderr w) (stdout w)
    (stderr w) (stdout_queue w) (stderr_queue w) (update_button w)
    (upgrade_button w) (list_button w) (spinner w).

Definition set_stdout (s : string) (w : UpdateWindow) : UpdateWindow :=
  mkWindow (buffer w) (output_msg w) (empty_msg w) (ignore_stderr w) s
    (stderr w) (stdout_queue w) (stderr_queue w) (update_button w)
    (upgrade_button w) (list_button w) (spinner w).

Definition set_stderr (s : string) (w : UpdateWindow) : UpdateWindow :=
  mkWindow (buffer w) (output_msg w) (empty_msg w) (ignore_stderr w)
    (stdout w) s (stdout_queue w) (stderr_queue w) (update_button w)
    (upgrade_button w) (list_button w) (spinner w).

Definition set_stdout_queue (q : list string) (w : UpdateWindow)
  : UpdateWindow :=
  mkWindow (buffer w) (output_msg w) (empty_msg w) (ignore_stderr w)
    (stdout w) (stderr w) q (stderr_queue w) (update_button w)
    (upgrade_button w) (list_button w) (spinner w).

Definition set_stderr_queue (q : list string) (w : UpdateWindow)
  : UpdateWindow :=
  mkWindow (buffer w) (output_msg w) (empty_msg w) (ignore_stderr w)
    (stdout w) (stderr w) (stdout_queue w) q (update_button w)
    (upgrade_button w) (list_button w) (spinner w).

Definition set_output_msg (o : option string) (w : UpdateWindow)
  : UpdateWindow :=
  mkWindow (buffer w) o (empty_msg w) (ignore_stderr w) (stdout w)
    (stderr w) (stdout_queue w) (stderr_queue w) (update_button w)
    (upgrade_button w) (list_button w) (spinner w).

(** [__init__]: two empty queues, an empty buffer, the three buttons
    sensitive and the spinner at rest.  The message fields are first
    assigned by [execute]. *)
Definition init_window : UpdateWindow :=
  mkWindow [] None None false "" "" [] [] true true true false.

(** [clear]. *)
Definition clear (w : UpdateWindow) : UpdateWindow := set_buffer [] w.

(** [level_to_color]. *)
Definition level_to_color (level : string) : string :=
  if String.eqb level "INFO" then "green"
  else if String.eqb level "ERROR" then "red"
  else "grey".

(** The markup string built by [insert_color]. *)
Definition color_markup (text color : string) : string :=
  ("<span color=" ++ dquote ++ color ++ dquote ++ ">"
   ++ html_escape text ++ "</span>")%string.

(** [prepend_color] and [append_color]. *)
Definition prepend_color (text color : string) (w : UpdateWindow)
  : UpdateWindow :=
  set_buffer (Markup (color_markup text color) :: buffer w) w.

Definition append_color (text color : string) (w : UpdateWindow)
  : UpdateWindow :=
  set_buffer (buffer w ++ [Markup (color_markup text color)]) w.

(** [prepend] and [append]; [insert] adds the line feed. *)
Definition prepend (text : string) (w : UpdateWindow) : UpdateWindow :=
  set_buffer (Plain (text ++ newline)%string :: buffer w) w.

Definition append (text : string) (w : UpdateWindow) : UpdateWindow :=
  set_buffer (buffer w ++ [Plain (text ++ newline)%string]) w.

(** [prepend_mesg]: the text first, then the level in front of it. *)
Definition prepend_mesg (level text : string) (w : UpdateWindow)
  : UpdateWindow :=
  prepend_color (level ++ ": ")%string (level_to_color level)
    (prepend text w).

(** [append_mesg]. *)
Definition append_mesg (level text : string) (w : UpdateWindow)
  : UpdateWindow :=
  append text
    (append_color (level ++ ": ")%string (level_to_color level) w).

(** [lock] and [unlock]. *)
Definition lock (w : UpdateWindow) : UpdateWindow :=
  mkWindow (buffer w) (output_msg w) (empty_msg w) (ignore_stderr w)
    (stdout w) (stderr w) (stdout_queue w) (stderr_queue w)
    false false false true.

Definition unlock (w : UpdateWindow) : UpdateWindow :=
  mkWindow (buffer w) (output_msg w) (empty_msg w) (ignore_stderr w)
    (stdout w) (stderr w) (stdout_queue w) (stderr_queue w)
    true true true false.

(** The three invoking controls are all sensitive. *)
Definition controls_enabled (w : UpdateWindow) : bool :=
  update_button w && upgrade_button w && list_button w.

(** The two pieces one rendered line of a level consists of. *)
Definition mesg (level text : string) : list piece :=
  [Markup (color_markup (level ++ ": ")%string (level_to_color level));
   Plain (text ++ newline)%string].

(** ** The child process as the worker observes it *)

(** The two pipes registered with the selector. *)
Inductive fileobj : Type := p_stdout | p_stderr.

(** One key returned by [sel.select()], with what the worker observes
    while it services the key: the text [read1().decode()] yields
    ([None] when the bytes read do not decode and UnicodeDecodeError is
    raised), and the value of [p.poll()] right after that read. *)
Record ready : Type := mkReady {
  key : fileobj;
  read1 : option string;
  poll : option Z
}.

(** One return of [sel.select()] is a list of ready keys; the life of a
    child is the list of the returns the worker gets.  When the list is
    used up the worker stays blocked in [sel.select()]. *)
Definition wakeup : Type := list ready.
Definition schedule : Type := list wakeup.

(** [subprocess.Popen(...)] either raises OSError (FileNotFoundError,
    PermissionError) or gives a child. *)
Inductive popen_result : Type :=
| OSError
| Child (sched : schedule).

(** The operating system: the inherited environment and the answer of
    [subprocess.Popen] to an argument vector and an environment. *)
Record OS : Type := mkOS {
  environ : list (string * string);
  Popen : list string -> list (string * string) -> popen_result
}.

(** [d[k] = v] on a dictionary kept as an association list. *)
Fixpoint dict_set (k v : string) (d : list (string * string))
  : list (string * string) :=
  match d with
  | [] => [(k, v)]
  | (k', v') :: rest =>
      if String.eqb k k' then (k, v) :: rest
      else (k', v') :: dict_set k v rest
  end.

(** [dict(base, **overlay)]. *)
Definition dict_merge (base overlay : list (string * string))
  : list (string * string) :=
  fold_left (fun d kv => dict_set (fst kv) (snd kv) d) overlay base.

(** ** Chunks and the worker *)

(** What the worker puts on the queues: the text of a read (line 148 on
    the stdout queue, line 150 on the stderr queue) or the exit code
    (line 155, on the stdout queue). *)
Inductive chunk : Type :=
| Data (src : fileobj) (text : string)
| Exit (exit_code : Z).

(** The string a chunk is on its queue. *)
Definition chunk_text (c : chunk) : string :=
  match c with
  | Data _ text => text
  | Exit exit_code => ("EXIT " ++ format_d exit_code)%string
  end.

(** The queue a chunk goes to. *)
Definition chunk_queue (c : chunk) : fileobj :=
  match c with
  | Data src _ => src
  | Exit _ => p_stdout
  end.

(** [queue.put] of a chunk. *)
Definition put (c : chunk) (w : UpdateWindow) : UpdateWindow :=
  match chunk_queue c with
  | p_stdout => set_stdout_queue (stdout_queue w ++ [chunk_text c]) w
  | p_stderr => set_stderr_queue (stderr_queue w ++ [chunk_text c]) w
  end.

(** How the [for] loop over one [sel.select()] result ends. *)
Inductive for_end : Type :=
| Exhausted
| Break
| Raise.

(** How the worker thread ends up: [run] returned, the thread is blocked
    in [sel.select()], or an exception ended the thread. *)
Inductive thread_end : Type :=
| Finished
| Selecting
| Died.

(** The chunk of lines 144 to 150, if any. *)
Definition data_chunk (k : fileobj) (raw : string) : list chunk :=
  match rstrip raw with
  | EmptyString => []
  | data => [Data k data]
  end.

(** The body of [for key, _ in sel.select()], lines 143 to 157. *)
Fixpoint for_keys (keys : wakeup) : list chunk * for_end :=
  match keys with
  | [] => ([], Exhausted)
  | r :: rest =>
      match read1 r with
      | None => ([], Raise)
      | Some raw =>
          match poll r with
          | Some exit_code =>
              (data_chunk (key r) raw ++ [Exit exit_code], Break)
          | None =>
              let '(puts, e) := for_keys rest in
              (data_chunk (key r) raw ++ puts, e)
          end
      end
  end.

(** [while not done], lines 142 to 157. *)
Fixpoint while_not_done (sched : schedule) : list chunk * thread_end :=
  match sched with
  | [] => ([], Selecting)
  | keys :: rest =>
      match for_keys keys with
      | (puts, Exhausted) =>
          let '(puts', e) := while_not_done rest in (puts ++ puts', e)
      | (puts, Break) => (puts, Finished)
      | (puts, Raise) => (puts, Died)
      end
  end.

(** [run]: the chunks put on the queues, in order, and how the thread
    ends. *)
Definition run (os : OS) (args : list string) (env : list (string * string))
  : list chunk * thread_end :=
  match Popen os args (dict_merge (environ os) env) with
  | OSError => ([], Died)
  | Child sched => while_not_done sched
  end.

(** ** execute and the commands *)

(** The arguments of the thread [execute] starts. *)
Record thread : Type := mkThread {
  thread_args : list string;
  thread_env : list (string * string)
}.

(** [execute], lines 114 to 130: the window it leaves on the UI thread
    and the thread it starts. *)
Definition execute (args : list string) (ignore_stderr : bool)
    (output_msg empty_msg : option string) (env : list (string * string))
    (clear_arg : bool) (w : UpdateWindow) : UpdateWindow * thread :=
  let w := lock w in
  let w := if clear_arg then clear w else w in
  let w := mkWindow (buffer w) output_msg empty_msg ignore_stderr "" ""
             (stdout_queue w) (stderr_queue w) (update_button w)
             (upgrade_button w) (list_button w) (spinner w) in
  let w := prepend_mesg "INFO"
             ("Running command " ++ dquote ++ join " " args ++ dquote
              ++ " ...")%string w in
  (w, mkThread args env).

(** [upgrade], [update] and [list]. *)
Definition upgrade (w : UpdateWindow) : UpdateWindow * thread :=
  execute ["/usr/bin/apt"; "-yqq"; "full-upgrade"] false None
    (Some "No package upgrades were performed.")
    [("DEBIAN_FRONTEND", "noninteractive")] true w.

Definition update (clear_arg : bool) (w : UpdateWindow)
  : UpdateWindow * thread :=
  execute ["/usr/bin/apt"; "-y"; "update"] false None None
    [("DEBIAN_FRONTEND", "noninteractive")] clear_arg w.

Definition list_upgradable (clear_arg : bool) (w : UpdateWindow)
  : UpdateWindow * thread :=
  execute ["/usr/bin/apt"; "-qq"; "list"; "--upgradable"] true
    (Some "Found the following package upgrades:")
    (Some "Comando executado!") [] clear_arg w.

(** ** update_buffer *)

(** How one call of [update_buffer] ends: it returned [True], or an
    exception other than [queue.Empty] left it. *)
Inductive tick : Type :=
| Returned (w : UpdateWindow)
| Raised (w : UpdateWindow).

Definition window_of (t : tick) : UpdateWindow :=
  match t with
  | Returned w => w
  | Raised w => w
  end.

(** [append_mesg("INFO", self.empty_msg)] of line 223, where the message
    may be [None]: [append_color] has run when [text + "\n"] raises
    TypeError in [insert]. *)
Definition append_mesg_opt (level : string) (text : option string)
    (w : UpdateWindow) : tick :=
  match text with
  | Some t => Returned (append_mesg level t w)
  | None =>
      Raised (append_color (level ++ ": ")%string (level_to_color level) w)
  end.

(** Lines 214 to 225: the display policy for exit code [exit_code]. *)
Definition classify_exit (exit_code : Z) (w : UpdateWindow) : tick :=
  if negb (exit_code =? 0) then
    Returned (unlock (append_mesg "ERROR"
      ("Command exited with code " ++ format_d exit_code)%string w))
  else
    match String.eqb (stdout w) "", empty_msg w, output_msg w with
    | true, Some m, _ => Returned (unlock (append_mesg "INFO" m w))
    | true, None, _ => Returned (unlock w)
    | false, _, Some _ =>
        match append_mesg_opt "INFO" (empty_msg w) w with
        | Returned w' => Returned (unlock w')
        | Raised w' => Raised w'
        end
    | false, _, None => Returned (unlock w)
    end.

(** Lines 206 to 228: the stdout queue. *)
Definition update_buffer_stdout (w : UpdateWindow) : tick :=
  match stdout_queue w with
  | [] => Returned w
  | text :: q =>
      let w := set_stdout_queue q w in
      match fullmatch_EXIT text with
      | None =>
          Returned (append_mesg "STDOUT" text
                      (set_stdout (stdout w ++ text)%string w))
      | Some digits =>
          match int digits with
          | Some exit_code => classify_exit exit_code w
          | None => Raised w
          end
      end
  end.

(** Lines 230 to 238: the stderr queue. *)
Definition update_buffer_stderr (w : UpdateWindow) : UpdateWindow :=
  match stderr_queue w with
  | [] => w
  | text :: q =>
      let w := set_stderr_queue q w in
      let w := set_stderr (stderr w ++ text)%string w in
      if negb (ignore_stderr w) then append_mesg "STDERR" text w else w
  end.

(** [update_buffer]. *)
Definition update_buffer (w : UpdateWindow) : tick :=
  match update_buffer_stdout w with
  | Returned w' => Returned (update_buffer_stderr w')
  | Raised w' => Raised w'
  end.

(** ** The worker and the timer together *)

(** The window and the chunks the worker has still to put.  A step is a
    [queue.put] of the worker or a call of [update_buffer] by the timer;
    a list of steps is one interleaving of the two threads.  The window
    a raising call leaves is kept, so every run of the program is a
    prefix of a run of this model. *)
Record system : Type := mkSystem {
  window : UpdateWindow;
  pending : list chunk
}.

Inductive step : Type := WorkerPut | TimerTick.

Definition do_step (st : step) (s : system) : system :=
  match st with
  | WorkerPut =>
      match pending s with
      | [] => s
      | c :: rest => mkSystem (put c (window s)) rest
      end
  | TimerTick => mkSystem (window_of (update_buffer (window s))) (pending s)
  end.

Definition do_steps (sts : list step) (s : system) : system :=
  fold_left (fun s st => do_step st s) sts s.

(** [execute] followed by the thread it starts, on a given system. *)
Definition start (os : OS) (ex : UpdateWindow * thread) : system :=
  mkSystem (fst ex) (fst (run os (thread_args (snd ex)) (thread_env (snd ex)))).

(** The number of lines of a level in a buffer: the coloured level
    prefixes [append_mesg] and [prepend_mesg] insert. *)
Definition is_level (level : string) (p : piece) : bool :=
  match p with
  | Markup m =>
      String.eqb m (color_markup (level ++ ": ")%string (level_to_color level))
  | Plain _ => false
  end.

Definition count_level (level : string) (b : list piece) : nat :=
  List.length (filter (is_level level) b).


(** The exit code [update_buffer] reads off a string of the stdout
    queue: [Some n] when the string matches the pattern of line 208. *)
Definition exit_code_of (text : string) : option Z :=
  match fullmatch_EXIT text with
  | Some digits => int digits
  | None => None
  end.

(** A string of the stdout queue that [update_buffer] takes for the
    terminal chunk. *)
Definition is_terminal (text : string) : bool :=
  match fullmatch_EXIT text with
  | Some _ => true
  | None => false
  end.

(** What the stderr half of [update_buffer] adds to the buffer. *)
Definition stderr_lines (w : UpdateWindow) : list piece :=
  match stderr_queue w with
  | [] => []
  | text :: _ => if ignore_stderr w then [] else mesg "STDERR" text
  end.

(** A ready key after which the worker goes on: the read decodes and
    the child has no exit status yet. *)
Definition running (r : ready) : bool :=
  match read1 r, poll r with
  | Some _, None => true
  | _, _ => false
  end.

(** The chunk a ready key contributes. *)
Definition text_read (r : ready) : list chunk :=
  match read1 r with
  | Some raw => data_chunk (key r) raw
  | None => []
  end.

Definition is_data (c : chunk) : bool :=
  match c with
  | Data _ _ => true
  | Exit _ => false
  end.

Definition thread_end_of (e : for_end) : thread_end :=
  match e with
  | Exhausted => Selecting
  | Break => Finished
  | Raise => Died
  end.

(** A pending chunk that [update_buffer] would take for the terminal
    chunk once it is on the stdout queue. *)
Definition unlocks (c : chunk) : bool :=
  match chunk_queue c with
  | p_stdout => is_terminal (chunk_text c)
  | p_stderr => false
  end.

(** The texts a list of pending chunks will put on the stderr queue. *)
Definition stderr_texts (cs : list chunk) : list string :=
  flat_map (fun c => match chunk_queue c with
                     | p_stderr => [chunk_text c]
                     | p_stdout => []
                     end) cs.

(** The texts a list of pending chunks will put on the stdout queue. *)
Definition stdout_texts (cs : list chunk) : list string :=
  flat_map (fun c => match chunk_queue c with
                     | p_stdout => [chunk_text c]
                     | p_stderr => []
                     end) cs.

(** All the chunks of a list put on the queues, in order. *)
Definition put_all (cs : list chunk) (w : UpdateWindow) : UpdateWindow :=
  fold_left (fun w c => put c w) cs w.

(** The concatenation of a list of texts. *)
Definition concat_texts (l : list string) : string :=
  fold_right String.append "" l.

(** A ready key whose read is empty once stripped. *)
Definition prints_nothing (r : ready) : bool :=
  match read1 r with
  | Some raw => String.eqb (rstrip raw) ""
  | None => false
  end.

(** The worker drains a schedule when the text of every ready key the
    selector returned is among the chunks it puts. *)
Definition drains (sched : schedule) : Prop :=
  forall r c, In r (List.concat sched) -> In c (text_read r) ->
              In c (fst (while_not_done sched)).

(** Everything read from stderr that the worker has put or has still
    to put, in order: accumulated, queued, pending. *)
Definition stderr_total (s : system) : string :=
  (stderr (window s) ++ concat_texts (stderr_queue (window s))
   ++ concat_texts (stderr_texts (pending s)))%string.

(** A system in which nothing will enable the controls: they are
    disabled, and neither a queued string nor a pending chunk is taken
    for the terminal chunk. *)
Definition quiet (s : system) : Prop :=
  controls_enabled (window s) = false
  /\ forallb (fun t => negb (is_terminal t)) (stdout_queue (window s)) = true
  /\ forallb (fun c => negb (unlocks c)) (pending s) = true.

(** Two windows that agree on everything the stdout half of
    [update_buffer] reads or shows. *)
Definition same_stdout_view (w w' : UpdateWindow) : Prop :=
  buffer w' = buffer w
  /\ stdout_queue w' = stdout_queue w
  /\ stdout w' = stdout w
  /\ empty_msg w' = empty_msg w
  /\ output_msg w' = output_msg w
  /\ ignore_stderr w' = ignore_stderr w
  /\ controls_enabled w' = controls_enabled w.

(** A string that is not empty. *)
Definition nonempty (t : string) : bool := negb (String.eqb t "").

(** A system in which a STDOUT line can only come with accumulated
    text: no empty string is queued or pending for stdout, and as long
    as [self.stdout] is empty the buffer has [b0] STDOUT lines. *)
Definition stdout_clean (b0 : nat) (s : system) : Prop :=
  forallb nonempty (stdout_queue (window s)) = true
  /\ forallb (fun c => nonempty (chunk_text c)) (pending s) = true
  /\ (stdout (window s) = "" ->
      count_level "STDOUT" (buffer (window s)) = b0).

(** ** Sample children *)

(** Both pipes are ready in one return of the selector and the child has
    exited: a last line on stdout, a last warning on stderr. *)
Definition trailing_schedule : schedule :=
  [[mkReady p_stdout (Some ("done" ++ newline)%string) (Some 0);
    mkReady p_stderr (Some ("W: trailing" ++ newline)%string) (Some 0)]].

(** A child that prints nothing and exits with code 0: end of file on
    stdout, then on stderr. *)
Definition silent_schedule : schedule :=
  [[mkReady p_stdout (Some "") None]; [mkReady p_stderr (Some "") (Some 0)]].

(** A child killed by signal 9 before it prints anything: [p.poll()]
    gives -9. *)
Definition killed_schedule : schedule :=
  [[mkReady p_stdout (Some "") (Some (-9))]].

(** A child that prints the line EXIT 7 and keeps running. *)
Definition exit_text_schedule : schedule :=
  [[mkReady p_stdout (Some ("EXIT 7" ++ newline)%string) None]].

(** A system without the executable, and systems that answer every
    [Popen] with one of the children above. *)
Definition os_missing : OS := mkOS [] (fun _ _ => OSError).
Definition os_silent : OS := mkOS [] (fun _ _ => Child silent_schedule).
Definition os_killed : OS := mkOS [] (fun _ _ => Child killed_schedule).
Definition os_exit_text : OS :=
  mkOS [] (fun _ _ => Child exit_text_schedule).

(** ** Further definitions for the properties of the code *)

(** A string of whitespace only. *)
Fixpoint all_space (s : string) : bool :=
  match s with
  | EmptyString => true
  | String c s' => isspace c && all_space s'
  end.

(** The last character of a string is whitespace. *)
Fixpoint ends_with_space (s : string) : bool :=
  match s with
  | EmptyString => false
  | String c EmptyString => isspace c
  | String _ s' => ends_with_space s'
  end.

(** A chunk as line 146 lets it through: a data chunk is not empty and
    does not end in whitespace. *)
Definition stripped (c : chunk) : bool :=
  match c with
  | Data _ t => nonempty t && negb (ends_with_space t)
  | Exit _ => true
  end.

(** [c in s] for a character. *)
Fixpoint occurs (c : ascii) (s : string) : bool :=
  match s with
  | EmptyString => false
  | String a s' => Ascii.eqb a c || occurs c s'
  end.

(** [d.get(k)] on a dictionary kept as an association list. *)
Fixpoint dict_get (k : string) (d : list (string * string))
  : option string :=
  match d with
  | [] => None
  | (k', v) :: rest => if String.eqb k k' then Some v else dict_get k rest
  end.

(** What [n] calls of [update_buffer] add to the buffer while the
    strings [ts] they take from the stdout queue are ordinary output:
    per call the STDOUT line, then the STDERR line of the head of the
    stderr queue [es] unless stderr is suppressed. *)
Fixpoint render_ticks (ign : bool) (ts es : list string) : list piece :=
  match ts with
  | [] => []
  | t :: ts' =>
      mesg "STDOUT" t
      ++ match es with
         | [] => []
         | e :: _ => if ign then [] else mesg "STDERR" e
         end
      ++ render_ticks ign ts' (tl es)
  end.

(** The strings of a list that are not taken for a terminal chunk. *)
Definition data_texts (l : list string) : list string :=
  filter (fun t => negb (is_terminal t)) l.

(** The ordinary stdout output of a system, in order: accumulated in
    [self.stdout], waiting on the stdout queue, still to be put. *)
Definition stdout_total (s : system) : string :=
  (stdout (window s) ++ concat_texts (data_texts (stdout_queue (window s)))
   ++ concat_texts (data_texts (stdout_texts (pending s))))%string.

(** The stderr chunks of a system, wherever they are: the STDERR lines
    of the buffer, the strings on the stderr queue, and the chunks the
    worker has still to put there. *)
Definition stderr_chunks (s : system) : nat :=
  (count_level "STDERR" (buffer (window s))
   + List.length (stderr_queue (window s))
   + List.length (stderr_texts (pending s)))%nat.

(** The ways two threads can interleave their puts. *)
Inductive shuffle : list chunk -> list chunk -> list chunk -> Prop :=
| shuffle_nil : shuffle [] [] []
| shuffle_left (c : chunk) (a b m : list chunk) :
    shuffle a b m -> shuffle (c :: a) b (c :: m)
| shuffle_right (c : chunk) (a b m : list chunk) :
    shuffle a b m -> shuffle a (c :: b) (c :: m).

(** [on_activate], lines 318 to 344, for what it does to the window:
    the window is created, then [update()] and [list(clear=False)] are
    called one after the other.  The result is the window and the two
    threads started. *)
Definition on_activate : UpdateWindow * (thread * thread) :=
  let '(w1, t1) := update true init_window in
  let '(w2, t2) := list_upgradable false w1 in
  (w2, (t1, t2)).

(** A child that writes a line and then bytes that do not decode. *)
Definition undecodable_schedule : schedule :=
  [[mkReady p_stdout (Some ("Get:1" ++ newline)%string) None];
   [mkReady p_stdout None None]].

(** A child that writes a line on stdout, a warning on stderr and exits
    with code 0. *)
Definition chatty_schedule : schedule :=
  [[mkReady p_stdout (Some ("Hit:1" ++ newline)%string) None];
   [mkReady p_stderr (Some ("W: slow" ++ newline)%string) None;
    mkReady p_stdout (Some "") (Some 0)]].

Definition os_chatty : OS := mkOS [] (fun _ _ => Child chatty_schedule).

(** What [html.escape] makes of one character. *)
Definition escape_char (c : ascii) : string :=
  if Ascii.eqb c "&" then "&amp;"
  else if Ascii.eqb c "<" then "&lt;"
  else if Ascii.eqb c ">" then "&gt;"
  else if Ascii.eqb c (ascii_of_nat 34) then "&quot;"
  else if Ascii.eqb c "'" then "&#x27;"
  else String c EmptyString.

(** The number of exit chunks among the chunks a worker has put. *)
Definition exit_count (puts : list chunk) : nat :=
  List.length (filter (fun c => negb (is_data c)) puts).

(** A system that answers every [Popen] with the child that writes
    bytes that do not decode. *)
Definition os_undecodable : OS :=
  mkOS [] (fun _ _ => Child undecodable_schedule).

(** * Properties *)

(** ** Decimal text *)

Section DecimalText.

Lemma all_decimal_string_of_uint (d : uint) :
  all_decimal (NilEmpty.string_of_uint d) = true.
Proof.
  induction d; simpl; auto.
Qed.

Lemma format_d_nonneg (n : Z) :
  0 <= n -> format_d n = NilEmpty.string_of_uint (N.to_uint (Z.to_N n))
            /\ N.to_uint (Z.to_N n) <> Nil.
Proof.
  intros Hn. unfold format_d.
  destruct n as [|p|p]; [| |lia].
  - split; [reflexivity|discriminate].
  - simpl. pose proof (Unsigned.to_uint_nonnil p) as Hp.
    split; [|exact Hp].
    unfold NilZero.string_of_uint. destruct (Pos.to_uint p); congruence.
Qed.

Lemma string_of_uint_nonempty (d : uint) :
  d <> Nil -> NilEmpty.string_of_uint d <> EmptyString.
Proof.
  destruct d; simpl; congruence.
Qed.

Lemma fullmatch_EXIT_digits (digits : string) :
  digits <> EmptyString -> all_decimal digits = true ->
  fullmatch_EXIT ("EXIT " ++ digits) = Some digits.
Proof.
  intros Hne Hall. unfold fullmatch_EXIT. simpl.
  destruct digits; [congruence|]. now rewrite Hall.
Qed.

Lemma fullmatch_EXIT_format_d (n : Z) :
  0 <= n -> fullmatch_EXIT (chunk_text (Exit n)) = Some (format_d n).
Proof.
  intros Hn. destruct (format_d_nonneg n Hn) as [Hf Hnil].
  simpl. apply fullmatch_EXIT_digits; rewrite Hf.
  - now apply string_of_uint_nonempty.
  - apply all_decimal_string_of_uint.
Qed.

Lemma int_format_d (n : Z) : 0 <= n -> int (format_d n) = Some n.
Proof.
  intros Hn. destruct (format_d_nonneg n Hn) as [Hf Hnil].
  unfold int. rewrite Hf.
  assert (Hu : NilZero.uint_of_string
                 (NilEmpty.string_of_uint (N.to_uint (Z.to_N n)))
               = Some (N.to_uint (Z.to_N n))).
  { pose proof (NilZero.usu (N.to_uint (Z.to_N n)) Hnil) as H.
    unfold NilZero.string_of_uint in H.
    destruct (N.to_uint (Z.to_N n)); [congruence| exact H ..]. }
  rewrite Hu. simpl. f_equal.
  pose proof (DecimalZ.of_to n) as Hz.
  unfold Z.to_int in Hz.
  destruct n as [|p|p]; [reflexivity| exact Hz | lia].
Qed.

Lemma exit_code_of_Exit (n : Z) :
  0 <= n -> exit_code_of (chunk_text (Exit n)) = Some n.
Proof.
  intros Hn. unfold exit_code_of.
  rewrite (fullmatch_EXIT_format_d n Hn). now apply int_format_d.
Qed.

Lemma fullmatch_EXIT_negative (n : Z) :
  n < 0 -> fullmatch_EXIT (chunk_text (Exit n)) = None.
Proof.
  intros Hn. destruct n as [|p|p]; try lia.
  unfold chunk_text, format_d. simpl Z.to_int.
  unfold NilZero.string_of_int. reflexivity.
Qed.

Lemma is_terminal_exit_code (text : string) :
  is_terminal text = true -> exists n, exit_code_of text = Some n /\ 0 <= n.
Proof.
  unfold is_terminal, exit_code_of, fullmatch_EXIT.
  destruct (strip_prefix "EXIT " text) as [digits|]; [|discriminate].
  destruct digits as [|c digits]; [discriminate|].
  destruct (all_decimal (String c digits)) eqn:Hall; [|discriminate].
  intros _. unfold int.
  assert (H : forall s, all_decimal s = true ->
            exists u, NilEmpty.uint_of_string s = Some u).
  { induction s as [|a s IH]; simpl.
    - eauto.
    - intros Ha. apply andb_prop in Ha. destruct Ha as [Ha Hs].
      destruct (IH Hs) as [u ->].
      destruct a as [[|] [|] [|] [|] [|] [|] [|] [|]];
        try discriminate Ha; simpl; eauto. }
  destruct (H _ Hall) as [u Hu].
  unfold NilZero.uint_of_string. rewrite Hu. simpl.
  eexists; split; [reflexivity|].
  unfold Z.of_uint. apply N2Z.is_nonneg.
Qed.

End DecimalText.

(** ** One call of update_buffer *)

Section OneTick.

Lemma buffer_append_mesg (level text : string) (w : UpdateWindow) :
  buffer (append_mesg level text w) = buffer w ++ mesg level text.
Proof.
  unfold append_mesg, append, append_color, mesg. simpl.
  now rewrite <- app_assoc.
Qed.

Lemma update_buffer_stdout_exit (w : UpdateWindow) (text : string)
    (q : list string) (n : Z) :
  stdout_queue w = text :: q -> exit_code_of text = Some n ->
  update_buffer_stdout w = classify_exit n (set_stdout_queue q w).
Proof.
  intros Hq Hn. unfold update_buffer_stdout. rewrite Hq.
  unfold exit_code_of in Hn.
  destruct (fullmatch_EXIT text) as [digits|]; [|discriminate].
  now rewrite Hn.
Qed.

Lemma update_buffer_stdout_data (w : UpdateWindow) (text : string)
    (q : list string) :
  stdout_queue w = text :: q -> is_terminal text = false ->
  update_buffer_stdout w
  = Returned (append_mesg "STDOUT" text
                (set_stdout (stdout w ++ text)%string
                   (set_stdout_queue q w))).
Proof.
  intros Hq Ht. unfold update_buffer_stdout. rewrite Hq.
  unfold is_terminal in Ht.
  destruct (fullmatch_EXIT text); [discriminate|reflexivity].
Qed.

Lemma buffer_update_buffer_stderr (w : UpdateWindow) :
  buffer (update_buffer_stderr w) = buffer w ++ stderr_lines w.
Proof.
  unfold update_buffer_stderr, stderr_lines.
  destruct (stderr_queue w) as [|text q]; simpl.
  - now rewrite app_nil_r.
  - destruct (ignore_stderr w); simpl.
    + now rewrite app_nil_r.
    + now rewrite <- app_assoc.
Qed.

Lemma controls_update_buffer_stderr (w : UpdateWindow) :
  controls_enabled (update_buffer_stderr w) = controls_enabled w.
Proof.
  unfold update_buffer_stderr.
  destruct (stderr_queue w) as [|text q]; [reflexivity|].
  simpl. now destruct (ignore_stderr w).
Qed.

Lemma stdout_update_buffer_stderr (w : UpdateWindow) :
  stdout (update_buffer_stderr w) = stdout w
  /\ stdout_queue (update_buffer_stderr w) = stdout_queue w
  /\ empty_msg (update_buffer_stderr w) = empty_msg w
  /\ output_msg (update_buffer_stderr w) = output_msg w
  /\ ignore_stderr (update_buffer_stderr w) = ignore_stderr w.
Proof.
  unfold update_buffer_stderr.
  destruct (stderr_queue w) as [|text q]; [repeat split|].
  simpl. destruct (ignore_stderr w) eqn:Hi; simpl; rewrite ?Hi; repeat split.
Qed.

(** The lines of a level among the lines the stderr half adds. *)
Lemma count_level_stderr_lines (level : string) (w : UpdateWindow) :
  level = "INFO" \/ level = "STDOUT" \/ level = "ERROR" ->
  count_level level (stderr_lines w) = 0%nat.
Proof.
  unfold stderr_lines.
  destruct (stderr_queue w) as [|text q]; [reflexivity|].
  destruct (ignore_stderr w); [reflexivity|].
  intros [-> | [-> | ->]]; reflexivity.
Qed.

Lemma count_level_app (level : string) (b1 b2 : list piece) :
  count_level level (b1 ++ b2)
  = (count_level level b1 + count_level level b2)%nat.
Proof.
  unfold count_level. now rewrite filter_app, length_app.
Qed.

(** What one call adds for a terminal chunk with code 0 when nothing
    was accumulated and an empty-output message is configured. *)
Lemma update_buffer_exit_zero_empty (w : UpdateWindow) (text : string)
    (q : list string) (m : string) :
  stdout_queue w = text :: q ->
  exit_code_of text = Some 0 ->
  stdout w = "" ->
  empty_msg w = Some m ->
  exists w',
    update_buffer w = Returned w'
    /\ buffer w' = buffer w ++ mesg "INFO" m ++ stderr_lines w
    /\ count_level "INFO" (mesg "INFO" m ++ stderr_lines w) = 1%nat
    /\ count_level "STDOUT" (mesg "INFO" m ++ stderr_lines w) = 0%nat
    /\ stdout w' = ""
    /\ controls_enabled w' = true.
Proof.
  intros Hq Hcode Hout Hmsg.
  unfold update_buffer.
  rewrite (update_buffer_stdout_exit w text q 0 Hq Hcode).
  unfold classify_exit. simpl negb. cbv iota.
  replace (stdout (set_stdout_queue q w)) with (stdout w) by reflexivity.
  replace (empty_msg (set_stdout_queue q w)) with (empty_msg w)
    by reflexivity.
  rewrite Hout, Hmsg. simpl String.eqb. cbv iota.
  eexists. split; [reflexivity|].
  rewrite buffer_update_buffer_stderr, controls_update_buffer_stderr.
  destruct (stdout_update_buffer_stderr
              (unlock (append_mesg "INFO" m (set_stdout_queue q w))))
    as [Hs _].
  rewrite Hs, !count_level_app, !count_level_stderr_lines by auto.
  repeat split; try reflexivity.
  - unfold stderr_lines. simpl. now rewrite <- !app_assoc.
  - simpl. exact Hout.
Qed.

(** C7: when the terminal chunk carries exit code 0, nothing has been
    accumulated from stdout and an empty-output message [m] is
    configured, the call of [update_buffer] that takes the terminal chunk
    returns, and what it adds to the buffer is the line INFO [m] (and the
    line of a stderr chunk taken in the same call): one line of level
    INFO, whose text is [m], and no line of level STDOUT.  The controls
    are enabled again. *)
Theorem C7_exit_zero_empty_stdout (w : UpdateWindow) (text : string)
    (q : list string) (m : string) :
  stdout_queue w = text :: q ->
  exit_code_of text = Some 0 ->
  stdout w = "" ->
  empty_msg w = Some m ->
  exists w',
    update_buffer w = Returned w'
    /\ buffer w' = buffer w ++ mesg "INFO" m ++ stderr_lines w
    /\ count_level "INFO" (mesg "INFO" m ++ stderr_lines w) = 1%nat
    /\ count_level "STDOUT" (mesg "INFO" m ++ stderr_lines w) = 0%nat
    /\ stdout w' = ""
    /\ controls_enabled w' = true.
Proof.
  apply update_buffer_exit_zero_empty.
Qed.

(** A window just before the terminal chunk of a silent successful run
    is taken. *)
Lemma C7_exit_zero_empty_stdout_witness :
  let w := mkWindow [] None (Some "nothing to do") false "" ""
             ["EXIT 0"] [] false false false true in
  exists w',
    update_buffer w = Returned w'
    /\ buffer w' = buffer w ++ mesg "INFO" "nothing to do" ++ stderr_lines w
    /\ count_level "INFO" (mesg "INFO" "nothing to do" ++ stderr_lines w)
       = 1%nat
    /\ count_level "STDOUT" (mesg "INFO" "nothing to do" ++ stderr_lines w)
       = 0%nat
    /\ stdout w' = ""
    /\ controls_enabled w' = true.
Proof.
  intros w.
  apply (C7_exit_zero_empty_stdout w "EXIT 0" [] "nothing to do");
    reflexivity.
Defined.

(** What one call adds for a string of the stdout queue that is not
    taken for the terminal chunk. *)
Lemma update_buffer_data (w : UpdateWindow) (text : string)
    (q : list string) :
  stdout_queue w = text :: q -> is_terminal text = false ->
  exists w',
    update_buffer w = Returned w'
    /\ buffer w' = buffer w ++ mesg "STDOUT" text ++ stderr_lines w
    /\ stdout w' = (stdout w ++ text)%string
    /\ stdout_queue w' = q
    /\ controls_enabled w' = controls_enabled w.
Proof.
  intros Hq Ht. unfold update_buffer.
  rewrite (update_buffer_stdout_data w text q Hq Ht).
  eexists. split; [reflexivity|].
  rewrite buffer_update_buffer_stderr, controls_update_buffer_stderr.
  destruct (stdout_update_buffer_stderr
              (append_mesg "STDOUT" text
                 (set_stdout (stdout w ++ text)%string
                    (set_stdout_queue q w))))
    as (Hs & Hsq & _).
  rewrite Hs, Hsq. repeat split.
  unfold stderr_lines. simpl. now rewrite <- !app_assoc.
Qed.

(** What one call adds for a terminal chunk with a code other than 0. *)
Lemma update_buffer_exit_nonzero (w : UpdateWindow) (text : string)
    (q : list string) (n : Z) :
  stdout_queue w = text :: q -> exit_code_of text = Some n -> n <> 0 ->
  exists w',
    update_buffer w = Returned w'
    /\ buffer w'
       = buffer w
         ++ mesg "ERROR" ("Command exited with code " ++ format_d n)%string
         ++ stderr_lines w
    /\ controls_enabled w' = true
    /\ spinner w' = false
    /\ stdout w' = stdout w.
Proof.
  intros Hq Hcode Hn. unfold update_buffer.
  rewrite (update_buffer_stdout_exit w text q n Hq Hcode).
  unfold classify_exit.
  destruct (n =? 0) eqn:Hz; [apply Z.eqb_eq in Hz; contradiction|].
  simpl negb. cbv iota.
  eexists. split; [reflexivity|].
  rewrite buffer_update_buffer_stderr, controls_update_buffer_stderr.
  repeat split.
  - unfold stderr_lines. simpl. now rewrite <- !app_assoc.
  - unfold update_buffer_stderr. simpl.
    destruct (stderr_queue w); [reflexivity|].
    now destruct (ignore_stderr w).
  - unfold update_buffer_stderr. simpl.
    destruct (stderr_queue w); [reflexivity|].
    now destruct (ignore_stderr w).
Qed.

(** C2: when the terminal chunk carries exit code 0, the accumulated
    stdout is not empty and both messages are configured, the call of
    [update_buffer] that takes the terminal chunk adds one INFO line
    whose text is the empty-output message [e], and enables the controls;
    the buffer it leaves is the same whatever the text of the configured
    non-empty-output message is. *)
Theorem C2_nonempty_stdout_renders_empty_msg (w : UpdateWindow)
    (text : string) (q : list string) (o e : string) :
  stdout_queue w = text :: q ->
  exit_code_of text = Some 0 ->
  stdout w <> "" ->
  output_msg w = Some o ->
  empty_msg w = Some e ->
  exists w',
    update_buffer w = Returned w'
    /\ buffer w' = buffer w ++ mesg "INFO" e ++ stderr_lines w
    /\ count_level "INFO" (mesg "INFO" e ++ stderr_lines w) = 1%nat
    /\ controls_enabled w' = true
    /\ forall o' : string,
         buffer (window_of (update_buffer (set_output_msg (Some o') w)))
         = buffer w'.
Proof.
  intros Hq Hcode Hout Ho He.
  assert (Hne : String.eqb (stdout w) "" = false)
    by now apply String.eqb_neq.
  assert (Hgen : forall o' : string,
            update_buffer (set_output_msg (Some o') w)
            = Returned (update_buffer_stderr
                (unlock (append_mesg "INFO" e
                   (set_stdout_queue q (set_output_msg (Some o') w)))))).
  { intros o'. unfold update_buffer.
    rewrite (update_buffer_stdout_exit (set_output_msg (Some o') w)
               text q 0 Hq Hcode).
    unfold classify_exit. simpl negb. cbv iota.
    replace (stdout (set_stdout_queue q (set_output_msg (Some o') w)))
      with (stdout w) by reflexivity.
    replace (empty_msg (set_stdout_queue q (set_output_msg (Some o') w)))
      with (empty_msg w) by reflexivity.
    rewrite Hne, He. reflexivity. }
  assert (Hw : set_output_msg (Some o) w = w).
  { destruct w; simpl in *. now rewrite Ho. }
  exists (update_buffer_stderr
            (unlock (append_mesg "INFO" e (set_stdout_queue q w)))).
  split; [rewrite <- Hw at 1; rewrite (Hgen o), Hw; reflexivity|].
  rewrite buffer_update_buffer_stderr, controls_update_buffer_stderr.
  rewrite count_level_app, count_level_stderr_lines by auto.
  repeat split.
  - unfold stderr_lines. simpl. now rewrite <- !app_assoc.
  - intros o'. rewrite (Hgen o'). simpl window_of.
    rewrite buffer_update_buffer_stderr. reflexivity.
Qed.

(** A window of the list command just before the terminal chunk is
    taken, after one line of output. *)
Lemma C2_nonempty_stdout_renders_empty_msg_witness :
  let w := mkWindow [] (Some "Found the following package upgrades:")
             (Some "Comando executado!") true "pkg/stable 1.0" ""
             ["EXIT 0"] [] false false false true in
  exists w',
    update_buffer w = Returned w'
    /\ buffer w'
       = buffer w ++ mesg "INFO" "Comando executado!" ++ stderr_lines w
    /\ count_level "INFO"
         (mesg "INFO" "Comando executado!" ++ stderr_lines w) = 1%nat
    /\ controls_enabled w' = true
    /\ forall o' : string,
         buffer (window_of (update_buffer (set_output_msg (Some o') w)))
         = buffer w'.
Proof.
  intros w.
  apply (C2_nonempty_stdout_renders_empty_msg w "EXIT 0" []
           "Found the following package upgrades:" "Comando executado!");
    try reflexivity.
  discriminate.
Defined.

(** With a non-empty-output message configured and no empty-output
    message, line 223 passes [None] to [append_mesg]: the coloured
    prefix is inserted, [insert] raises, and the controls stay
    disabled. *)
Lemma update_buffer_output_msg_alone (w : UpdateWindow) (text : string)
    (q : list string) (o : string) :
  stdout_queue w = text :: q ->
  exit_code_of text = Some 0 ->
  stdout w <> "" ->
  output_msg w = Some o ->
  empty_msg w = None ->
  exists w',
    update_buffer w = Raised w'
    /\ controls_enabled w' = controls_enabled w.
Proof.
  intros Hq Hcode Hout Ho He.
  assert (Hne : String.eqb (stdout w) "" = false)
    by now apply String.eqb_neq.
  unfold update_buffer.
  rewrite (update_buffer_stdout_exit w text q 0 Hq Hcode).
  unfold classify_exit. simpl negb. cbv iota.
  replace (stdout (set_stdout_queue q w)) with (stdout w) by reflexivity.
  replace (empty_msg (set_stdout_queue q w)) with (empty_msg w)
    by reflexivity.
  replace (output_msg (set_stdout_queue q w)) with (output_msg w)
    by reflexivity.
  rewrite Hne, He, Ho. simpl. eexists. split; reflexivity.
Qed.

End OneTick.

(** ** The worker loop *)

Section Worker.

Lemma for_keys_app (a b : list ready) :
  for_keys (a ++ b)
  = match for_keys a with
    | (puts, Exhausted) =>
        (puts ++ fst (for_keys b), snd (for_keys b))
    | done => done
    end.
Proof.
  induction a as [|r a IH]; simpl.
  - now destruct (for_keys b).
  - destruct (read1 r) as [raw|]; [|reflexivity].
    destruct (poll r) as [n|]; [reflexivity|].
    rewrite IH. destruct (for_keys a) as [puts [| |]]; try reflexivity.
    now rewrite app_assoc.
Qed.

Lemma while_not_done_concat (sched : schedule) :
  while_not_done sched
  = (fst (for_keys (List.concat sched)),
     thread_end_of (snd (for_keys (List.concat sched)))).
Proof.
  induction sched as [|keys rest IH]; simpl; [reflexivity|].
  rewrite for_keys_app.
  destruct (for_keys keys) as [puts [| |]]; try reflexivity.
  rewrite IH. reflexivity.
Qed.

Lemma for_keys_running (before : list ready) :
  forallb running before = true ->
  for_keys before = (flat_map text_read before, Exhausted).
Proof.
  induction before as [|r before IH]; simpl; [reflexivity|].
  intros H. apply andb_prop in H. destruct H as [Hr Hb].
  unfold running in Hr. unfold text_read at 1.
  destruct (read1 r) as [raw|]; [|discriminate].
  destruct (poll r); [discriminate|].
  now rewrite (IH Hb).
Qed.

(** The worker on a child whose exit status shows at ready key [r]. *)
Lemma while_not_done_exit (sched : schedule) (before after : list ready)
    (r : ready) (raw : string) (n : Z) :
  List.concat sched = before ++ r :: after ->
  forallb running before = true ->
  read1 r = Some raw -> poll r = Some n ->
  while_not_done sched
  = (flat_map text_read (before ++ [r]) ++ [Exit n], Finished).
Proof.
  intros Hc Hb Hr Hp.
  rewrite while_not_done_concat, Hc, for_keys_app.
  rewrite (for_keys_running before Hb). simpl.
  rewrite Hr, Hp. simpl.
  rewrite flat_map_app. simpl. unfold text_read at 3. rewrite Hr.
  now rewrite app_nil_r, app_assoc.
Qed.

Lemma is_data_data_chunk (k : fileobj) (raw : string) :
  forallb is_data (data_chunk k raw) = true.
Proof.
  unfold data_chunk. now destruct (rstrip raw).
Qed.

Lemma is_data_text_read (rs : list ready) :
  forallb is_data (flat_map text_read rs) = true.
Proof.
  induction rs as [|r rs IH]; simpl; [reflexivity|].
  rewrite forallb_app, IH, andb_true_r.
  unfold text_read. destruct (read1 r); [apply is_data_data_chunk|].
  reflexivity.
Qed.

(** Whatever the child does, the chunks of [for_keys] are data chunks,
    followed by one exit chunk exactly when the loop is left by
    [break], and then the code is the one [p.poll()] gave. *)
Lemma for_keys_shape (keys : list ready) :
  match for_keys keys with
  | (puts, Break) =>
      exists data n r,
        puts = data ++ [Exit n] /\ forallb is_data data = true
        /\ In r keys /\ poll r = Some n
  | (puts, _) => forallb is_data puts = true
  end.
Proof.
  induction keys as [|r keys IH]; simpl; [reflexivity|].
  destruct (read1 r) as [raw|]; [|reflexivity].
  destruct (poll r) as [n|] eqn:Hp.
  - exists (data_chunk (key r) raw), n, r.
    repeat split; auto using is_data_data_chunk.
  - destruct (for_keys keys) as [puts [| |]].
    + now rewrite forallb_app, is_data_data_chunk.
    + destruct IH as (data & n & r' & -> & Hd & Hin & Hr').
      exists (data_chunk (key r) raw ++ data), n, r'.
      rewrite forallb_app, is_data_data_chunk, Hd, app_assoc.
      repeat split; auto.
    + now rewrite forallb_app, is_data_data_chunk.
Qed.

Lemma stdout_queue_put_all (cs : list chunk) (w : UpdateWindow) :
  stdout_queue (put_all cs w) = stdout_queue w ++ stdout_texts cs.
Proof.
  revert w. induction cs as [|c cs IH]; intros w; simpl.
  - now rewrite app_nil_r.
  - unfold put_all in IH. rewrite IH. unfold put, stdout_texts.
    destruct (chunk_queue c); simpl.
    + now rewrite <- app_assoc.
    + reflexivity.
Qed.

Lemma stdout_texts_app (a b : list chunk) :
  stdout_texts (a ++ b) = stdout_texts a ++ stdout_texts b.
Proof.
  unfold stdout_texts. apply flat_map_app.
Qed.

Lemma while_not_done_shape (sched : schedule) :
  match while_not_done sched with
  | (puts, Finished) =>
      exists data n r,
        puts = data ++ [Exit n] /\ forallb is_data data = true
        /\ In r (List.concat sched) /\ poll r = Some n
  | (puts, _) => forallb is_data puts = true
  end.
Proof.
  rewrite while_not_done_concat.
  pose proof (for_keys_shape (List.concat sched)) as H.
  destruct (for_keys (List.concat sched)) as [puts [| |]]; exact H.
Qed.

Lemma exit_count_data (data : list chunk) :
  forallb is_data data = true -> exit_count data = 0%nat.
Proof.
  unfold exit_count. induction data as [|c data IH]; simpl; [reflexivity|].
  intros H. apply andb_prop in H. destruct H as [Hc Hd].
  rewrite Hc. simpl. now apply IH.
Qed.

Lemma exit_count_data_exit (data : list chunk) (n : Z) :
  forallb is_data data = true -> exit_count (data ++ [Exit n]) = 1%nat.
Proof.
  intros H. unfold exit_count. rewrite filter_app, length_app.
  fold (exit_count data). now rewrite (exit_count_data data H).
Qed.

(** C5, as the code has it: for every run the worker puts the exit
    chunk at most once.  When [run] returns, its puts are data chunks
    followed by one exit chunk, which is therefore the last chunk on
    the stdout queue, and its code is the one [p.poll()] gave at a
    ready key of the child, so it is put only after the child has
    exited.  When [run] does not return, because [Popen] raised, a read
    did not decode or the child shows no exit status, no exit chunk has
    been put.  And whenever the exit status of the child shows at a
    ready key [r] the loop reaches, [run] does return, having put the
    data read up to [r] and then the exit chunk, exactly once. *)
Theorem C5_exit_chunk_last_at_most_once (os : OS) (args : list string)
    (env : list (string * string)) :
  (exit_count (fst (run os args env)) <= 1)%nat
  /\ match run os args env with
     | (puts, Finished) =>
         exists sched data n r,
           Popen os args (dict_merge (environ os) env) = Child sched
           /\ puts = data ++ [Exit n] /\ forallb is_data data = true
           /\ exit_count puts = 1%nat
           /\ In r (List.concat sched) /\ poll r = Some n
     | (puts, _) => forallb is_data puts = true /\ exit_count puts = 0%nat
     end
  /\ forall (sched : schedule) (before after : list ready) (r : ready)
       (raw : string) (n : Z),
       Popen os args (dict_merge (environ os) env) = Child sched ->
       List.concat sched = before ++ r :: after ->
       forallb running before = true ->
       read1 r = Some raw -> poll r = Some n ->
       run os args env
       = (flat_map text_read (before ++ [r]) ++ [Exit n], Finished)
       /\ forallb is_data (flat_map text_read (before ++ [r])) = true
       /\ exit_count (fst (run os args env)) = 1%nat
       /\ forall w : UpdateWindow,
            stdout_queue (put_all (fst (run os args env)) w)
            = stdout_queue w
              ++ stdout_texts (flat_map text_read (before ++ [r]))
              ++ [chunk_text (Exit n)].
Proof.
  assert (Hshape :
            match run os args env with
            | (puts, Finished) =>
                exists sched data n r,
                  Popen os args (dict_merge (environ os) env) = Child sched
                  /\ puts = data ++ [Exit n] /\ forallb is_data data = true
                  /\ exit_count puts = 1%nat
                  /\ In r (List.concat sched) /\ poll r = Some n
            | (puts, _) =>
                forallb is_data puts = true /\ exit_count puts = 0%nat
            end).
  { unfold run.
    destruct (Popen os args (dict_merge (environ os) env)) as [|sched];
      [split; reflexivity|].
    pose proof (while_not_done_shape sched) as H.
    destruct (while_not_done sched) as [puts [| |]].
    - destruct H as (data & n & r & -> & Hd & Hin & Hp).
      exists sched, data, n, r.
      repeat split; auto using exit_count_data_exit.
    - split; [exact H | now apply exit_count_data].
    - split; [exact H | now apply exit_count_data]. }
  split; [|split; [exact Hshape|]].
  - destruct (run os args env) as [puts [| |]]; simpl.
    + destruct Hshape as (_ & _ & _ & _ & _ & _ & _ & -> & _). lia.
    + destruct Hshape as [_ ->]. lia.
    + destruct Hshape as [_ ->]. lia.
  - intros sched before after r raw n Hos Hc Hb Hr Hp.
    assert (Hrun : run os args env
                   = (flat_map text_read (before ++ [r]) ++ [Exit n],
                      Finished)).
    { unfold run. rewrite Hos.
      apply (while_not_done_exit sched before after r raw n Hc Hb Hr Hp). }
    split; [exact Hrun|]. split; [apply is_data_text_read|].
    rewrite Hrun. simpl fst. split.
    + apply exit_count_data_exit, is_data_text_read.
    + intros w. rewrite stdout_queue_put_all, stdout_texts_app. reflexivity.
Qed.

(** The update command with a child that writes a line on each pipe and
    exits with code 0. *)
Lemma C5_exit_chunk_last_at_most_once_witness :
  run os_chatty ["/usr/bin/apt"; "-y"; "update"]
    [("DEBIAN_FRONTEND", "noninteractive")]
  = ([Data p_stdout "Hit:1"; Data p_stderr "W: slow"; Exit 0], Finished)
  /\ exit_count
       (fst (run os_chatty ["/usr/bin/apt"; "-y"; "update"]
               [("DEBIAN_FRONTEND", "noninteractive")])) = 1%nat
  /\ stdout_queue
       (put_all
          (fst (run os_chatty ["/usr/bin/apt"; "-y"; "update"]
                  [("DEBIAN_FRONTEND", "noninteractive")])) init_window)
     = ["Hit:1"; "EXIT 0"].
Proof.
  destruct (C5_exit_chunk_last_at_most_once os_chatty
              ["/usr/bin/apt"; "-y"; "update"]
              [("DEBIAN_FRONTEND", "noninteractive")]) as (_ & _ & H).
  destruct (H chatty_schedule
              [mkReady p_stdout (Some ("Hit:1" ++ newline)%string) None;
               mkReady p_stderr (Some ("W: slow" ++ newline)%string) None]
              [] (mkReady p_stdout (Some "") (Some 0)) "" 0
              eq_refl eq_refl eq_refl eq_refl eq_refl)
    as (Hrun & _ & Hone & Hq).
  split; [exact Hrun|]. split; [exact Hone | exact (Hq init_window)].
Defined.

(** C5 as stated fails: not every run puts the exit chunk exactly once.
    On a system without the executable [run] ends in [Popen]; with a
    child whose bytes do not decode it ends in [decode]; with a child
    that writes and shows no exit status it stays in [sel.select()].
    In each of these runs no exit chunk is put. *)
Lemma C5_exit_chunk_counterexample :
  run os_missing ["/usr/bin/apt"; "-y"; "update"]
    [("DEBIAN_FRONTEND", "noninteractive")] = ([], Died)
  /\ exit_count
       (fst (run os_missing ["/usr/bin/apt"; "-y"; "update"]
               [("DEBIAN_FRONTEND", "noninteractive")])) <> 1%nat
  /\ run os_undecodable ["/usr/bin/apt"; "-y"; "update"]
       [("DEBIAN_FRONTEND", "noninteractive")]
     = ([Data p_stdout "Get:1"], Died)
  /\ exit_count
       (fst (run os_undecodable ["/usr/bin/apt"; "-y"; "update"]
               [("DEBIAN_FRONTEND", "noninteractive")])) <> 1%nat
  /\ run os_exit_text ["/usr/bin/apt"; "-y"; "update"]
       [("DEBIAN_FRONTEND", "noninteractive")]
     = ([Data p_stdout "EXIT 7"], Selecting)
  /\ exit_count
       (fst (run os_exit_text ["/usr/bin/apt"; "-y"; "update"]
               [("DEBIAN_FRONTEND", "noninteractive")])) <> 1%nat.
Proof.
  repeat split; discriminate.
Qed.

(** C4, on the code: with both pipes ready in one return of the selector
    and the child already gone, [run] reads stdout, puts the exit chunk
    and leaves the loop; the warning waiting on stderr is never read, so
    the worker does not drain this child. *)
Theorem C4_trailing_output_lost :
  while_not_done trailing_schedule
  = ([Data p_stdout "done"; Exit 0], Finished)
  /\ stderr_texts (fst (while_not_done trailing_schedule)) = []
  /\ ~ drains trailing_schedule.
Proof.
  split; [reflexivity|]. split; [reflexivity|].
  intros H.
  specialize (H (mkReady p_stderr (Some ("W: trailing" ++ newline)%string)
                   (Some 0))
                (Data p_stderr "W: trailing")).
  simpl in H.
  destruct H as [H|[H|[]]]; auto; discriminate H.
Qed.

End Worker.

(** ** The worker and the timer interleaved *)

Section Interleaving.

Lemma append_assoc (a b c : string) :
  ((a ++ b) ++ c)%string = (a ++ (b ++ c))%string.
Proof.
  induction a as [|x a IH]; simpl; [reflexivity|]. now rewrite IH.
Qed.

Lemma append_empty_r (a : string) : (a ++ "")%string = a.
Proof.
  induction a as [|x a IH]; simpl; [reflexivity|]. now rewrite IH.
Qed.

Lemma concat_texts_app (a b : list string) :
  concat_texts (a ++ b) = (concat_texts a ++ concat_texts b)%string.
Proof.
  induction a as [|x a IH]; simpl; [reflexivity|].
  now rewrite IH, append_assoc.
Qed.

Lemma update_buffer_idle (w : UpdateWindow) :
  stdout_queue w = [] ->
  update_buffer w = Returned (update_buffer_stderr w).
Proof.
  intros Hq. unfold update_buffer, update_buffer_stdout. now rewrite Hq.
Qed.

Lemma count_level_snoc_markup (level : string) (b : list piece)
    (m : string) :
  is_level level (Markup m) = false ->
  count_level level (b ++ [Markup m]) = count_level level b.
Proof.
  intros H. rewrite count_level_app. unfold count_level at 2.
  cbn [filter]. rewrite H. cbn [List.length]. lia.
Qed.

(** The stdout half of a call leaves what concerns stderr as it is. *)
Lemma update_buffer_stdout_frame (w : UpdateWindow) :
  ignore_stderr (window_of (update_buffer_stdout w)) = ignore_stderr w
  /\ stderr (window_of (update_buffer_stdout w)) = stderr w
  /\ stderr_queue (window_of (update_buffer_stdout w)) = stderr_queue w
  /\ count_level "STDERR" (buffer (window_of (update_buffer_stdout w)))
     = count_level "STDERR" (buffer w).
Proof.
  unfold update_buffer_stdout.
  destruct (stdout_queue w) as [|text q]; [repeat split|].
  destruct (fullmatch_EXIT text) as [digits|].
  - destruct (int digits) as [n|]; [|repeat split].
    unfold classify_exit.
    destruct (negb (n =? 0)).
    + simpl window_of. repeat split.
      change (buffer (unlock ?x)) with (buffer x).
      rewrite buffer_append_mesg, count_level_app. simpl buffer.
      change (count_level "STDERR" (mesg "ERROR" ?t)) with 0%nat. lia.
    + change (stdout (set_stdout_queue q w)) with (stdout w).
      change (empty_msg (set_stdout_queue q w)) with (empty_msg w).
      change (output_msg (set_stdout_queue q w)) with (output_msg w).
      destruct (String.eqb (stdout w) ""), (empty_msg w) as [m|],
        (output_msg w) as [o|]; simpl window_of; repeat split;
        try (change (buffer (unlock ?x)) with (buffer x);
             rewrite buffer_append_mesg, count_level_app; simpl buffer;
             change (count_level "STDERR" (mesg "INFO" ?t)) with 0%nat; lia).
      simpl buffer. now apply count_level_snoc_markup.
  - simpl window_of. repeat split.
    rewrite buffer_append_mesg, count_level_app. simpl buffer.
    change (count_level "STDERR" (mesg "STDOUT" ?t)) with 0%nat. lia.
Qed.

(** The stderr half with [ignore_stderr] set: no line, and the text
    moves from the queue to the accumulated buffer. *)
Lemma update_buffer_stderr_suppressed (w : UpdateWindow) :
  ignore_stderr w = true ->
  ignore_stderr (update_buffer_stderr w) = true
  /\ buffer (update_buffer_stderr w) = buffer w
  /\ (stderr (update_buffer_stderr w)
      ++ concat_texts (stderr_queue (update_buffer_stderr w)))%string
     = (stderr w ++ concat_texts (stderr_queue w))%string.
Proof.
  intros Hi. unfold update_buffer_stderr.
  destruct (stderr_queue w) as [|text q] eqn:Hq.
  - rewrite Hq. auto.
  - simpl. rewrite Hi. simpl. repeat split; auto.
    now rewrite append_assoc.
Qed.

Lemma stderr_texts_cons (c : chunk) (cs : list chunk) :
  stderr_texts (c :: cs)
  = match chunk_queue c with
    | p_stderr => chunk_text c :: stderr_texts cs
    | p_stdout => stderr_texts cs
    end.
Proof.
  unfold stderr_texts. simpl. now destruct (chunk_queue c).
Qed.

(** One step of a system whose command suppresses stderr. *)
Lemma suppressed_step (st : step) (s : system) :
  ignore_stderr (window s) = true ->
  ignore_stderr (window (do_step st s)) = true
  /\ count_level "STDERR" (buffer (window (do_step st s)))
     = count_level "STDERR" (buffer (window s))
  /\ stderr_total (do_step st s) = stderr_total s.
Proof.
  intros Hi. destruct st; unfold do_step.
  - destruct (pending s) as [|c rest] eqn:Hp; [now repeat split|].
    unfold stderr_total. simpl window. simpl pending.
    rewrite Hp, stderr_texts_cons. unfold put.
    destruct (chunk_queue c); simpl; repeat split; auto.
    rewrite concat_texts_app. simpl.
    now rewrite append_empty_r, !append_assoc.
  - unfold stderr_total. simpl window. simpl pending.
    destruct (update_buffer_stdout_frame (window s)) as (Fi & Fe & Fq & Fc).
    unfold update_buffer.
    destruct (update_buffer_stdout (window s)) as [w1|w1]; simpl in *.
    + rewrite Hi in Fi.
      destruct (update_buffer_stderr_suppressed w1 Fi) as (Gi & Gb & Gt).
      repeat split; auto.
      * now rewrite Gb.
      * rewrite <- !append_assoc, Gt, Fe, Fq. reflexivity.
    + repeat split; try congruence.
Qed.

Lemma suppressed_steps (sts : list step) (s : system) :
  ignore_stderr (window s) = true ->
  ignore_stderr (window (do_steps sts s)) = true
  /\ count_level "STDERR" (buffer (window (do_steps sts s)))
     = count_level "STDERR" (buffer (window s))
  /\ stderr_total (do_steps sts s) = stderr_total s.
Proof.
  revert s. induction sts as [|st sts IH]; intros s Hi; simpl.
  - now repeat split.
  - destruct (suppressed_step st s Hi) as (Hi' & Hc & Ht).
    destruct (IH (do_step st s) Hi') as (Hi2 & Hc2 & Ht2).
    unfold do_steps in *. repeat split; congruence.
Qed.


Lemma quiet_step (st : step) (s : system) :
  quiet s ->
  quiet (do_step st s)
  /\ count_level "ERROR" (buffer (window (do_step st s)))
     = count_level "ERROR" (buffer (window s)).
Proof.
  intros (Hc & Hq & Hp). destruct st; unfold do_step.
  - destruct (pending s) as [|c rest] eqn:Hpend.
    + split; [|reflexivity]. unfold quiet. now rewrite Hpend.
    + simpl in Hp. apply andb_prop in Hp. destruct Hp as [Hc0 Hrest].
      unfold quiet, put, unlocks in *. simpl window. simpl pending.
      destruct (chunk_queue c); simpl.
      * repeat split; auto. rewrite forallb_app, Hq. simpl.
        now rewrite Hc0.
      * repeat split; auto.
  - unfold quiet. simpl window. simpl pending.
    destruct (stdout_queue (window s)) as [|text q] eqn:Hsq.
    + rewrite (update_buffer_idle (window s) Hsq). simpl window_of.
      rewrite controls_update_buffer_stderr, buffer_update_buffer_stderr.
      destruct (stdout_update_buffer_stderr (window s)) as (_ & Hsq' & _).
      rewrite Hsq', Hsq, count_level_app, count_level_stderr_lines by auto.
      repeat split; auto.
    + simpl in Hq. apply andb_prop in Hq. destruct Hq as [Ht Hq].
      apply negb_true_iff in Ht.
      destruct (update_buffer_data (window s) text q Hsq Ht)
        as (w' & -> & Hb & _ & Hq' & Hc').
      simpl window_of.
      rewrite Hb, Hq', Hc', !count_level_app, count_level_stderr_lines
        by auto.
      repeat split; auto.
Qed.

(** Nothing enables the controls of a quiet system, and no ERROR line
    appears. *)
Lemma quiet_steps (sts : list step) (s : system) :
  quiet s ->
  quiet (do_steps sts s)
  /\ count_level "ERROR" (buffer (window (do_steps sts s)))
     = count_level "ERROR" (buffer (window s)).
Proof.
  revert s. induction sts as [|st sts IH]; intros s Hs; simpl.
  - now split.
  - destruct (quiet_step st s Hs) as [Hs' Hc].
    destruct (IH (do_step st s) Hs') as [Hs2 Hc2].
    unfold do_steps in *. split; [exact Hs2 | congruence].
Qed.

Lemma quiet_after_execute (args : list string) (ign : bool)
    (omsg emsg : option string) (env : list (string * string))
    (clr : bool) (w0 : UpdateWindow) (puts : list chunk) :
  forallb (fun t => negb (is_terminal t)) (stdout_queue w0) = true ->
  forallb (fun c => negb (unlocks c)) puts = true ->
  quiet (mkSystem (fst (execute args ign omsg emsg env clr w0)) puts).
Proof.
  intros Hq Hp. unfold quiet. simpl pending.
  destruct clr; repeat split; auto.
Qed.

(** C1, as the code has it: when the argument vector cannot be spawned
    [run] raises in the worker thread and puts no chunk on either queue;
    unless a string already on the stdout queue is taken for a terminal
    chunk, however many calls of [update_buffer] follow the controls
    stay disabled and no ERROR line is rendered. *)
Theorem C1_spawn_failure_leaves_controls_disabled (os : OS)
    (args : list string) (ign : bool) (omsg emsg : option string)
    (env : list (string * string)) (clr : bool) (w0 : UpdateWindow)
    (sts : list step) :
  Popen os args (dict_merge (environ os) env) = OSError ->
  forallb (fun t => negb (is_terminal t)) (stdout_queue w0) = true ->
  run os args env = ([], Died)
  /\ controls_enabled
       (window (do_steps sts
          (start os (execute args ign omsg emsg env clr w0)))) = false
  /\ count_level "ERROR"
       (buffer (window (do_steps sts
          (start os (execute args ign omsg emsg env clr w0)))))
     = count_level "ERROR" (if clr then [] else buffer w0).
Proof.
  intros Hos Hq.
  assert (Hrun : run os args env = ([], Died)).
  { unfold run. now rewrite Hos. }
  split; [exact Hrun|].
  unfold start. simpl thread_args. simpl thread_env. rewrite Hrun.
  simpl fst at 2 4.
  destruct (quiet_steps sts
              (mkSystem (fst (execute args ign omsg emsg env clr w0)) [])
              (quiet_after_execute args ign omsg emsg env clr w0 [] Hq
                 eq_refl)) as [(Hc & _) He].
  split; [exact Hc|]. rewrite He. simpl. now destruct clr.
Qed.

(** The update command on a system without /usr/bin/apt. *)
Lemma C1_spawn_failure_leaves_controls_disabled_witness :
  run os_missing ["/usr/bin/apt"; "-y"; "update"]
    [("DEBIAN_FRONTEND", "noninteractive")] = ([], Died)
  /\ controls_enabled
       (window (do_steps [TimerTick; TimerTick; TimerTick]
          (start os_missing (update true init_window)))) = false
  /\ count_level "ERROR"
       (buffer (window (do_steps [TimerTick; TimerTick; TimerTick]
          (start os_missing (update true init_window)))))
     = count_level "ERROR" [].
Proof.
  apply (C1_spawn_failure_leaves_controls_disabled os_missing
           ["/usr/bin/apt"; "-y"; "update"] false None None
           [("DEBIAN_FRONTEND", "noninteractive")] true init_window
           [TimerTick; TimerTick; TimerTick]); reflexivity.
Defined.

(** C1 as stated fails: on a system without /usr/bin/apt the worker of
    the update command puts nothing, and no interleaving reaches a
    window with the controls enabled or with an ERROR line. *)
Lemma C1_spawn_failure_counterexample :
  fst (run os_missing ["/usr/bin/apt"; "-y"; "update"]
         [("DEBIAN_FRONTEND", "noninteractive")]) = []
  /\ ~ (exists sts : list step,
         controls_enabled
           (window (do_steps sts
              (start os_missing (update true init_window)))) = true)
  /\ ~ (exists sts : list step,
         count_level "ERROR"
           (buffer (window (do_steps sts
              (start os_missing (update true init_window))))) <> 0%nat).
Proof.
  split; [reflexivity|].
  assert (H : forall sts,
            quiet (do_steps sts (start os_missing (update true init_window)))
            /\ count_level "ERROR"
                 (buffer (window (do_steps sts
                    (start os_missing (update true init_window)))))
               = 0%nat).
  { intros sts. apply (quiet_steps sts). repeat split. }
  split; intros [sts Hs]; destruct (H sts) as [(Hc & _) He].
  - rewrite Hc in Hs. discriminate.
  - contradiction.
Qed.

Lemma stderr_lines_suppressed (w : UpdateWindow) :
  ignore_stderr w = true -> stderr_lines w = [].
Proof.
  intros Hi. unfold stderr_lines. rewrite Hi.
  now destruct (stderr_queue w).
Qed.

(** Calls of [update_buffer] before anything is on the stdout queue,
    for a command that suppresses stderr. *)
Lemma idle_ticks (n : nat) (w : UpdateWindow) (pend : list chunk) :
  stdout_queue w = [] -> ignore_stderr w = true ->
  exists w',
    do_steps (repeat TimerTick n) (mkSystem w pend) = mkSystem w' pend
    /\ same_stdout_view w w'.
Proof.
  revert w. induction n as [|n IH]; intros w Hq Hi.
  - exists w. split; [reflexivity|]. unfold same_stdout_view. tauto.
  - simpl repeat. unfold do_steps. simpl fold_left.
    rewrite (update_buffer_idle w Hq). simpl window_of.
    destruct (stdout_update_buffer_stderr w) as (Hs & Hsq & He & Ho & Hig).
    destruct (IH (update_buffer_stderr w)) as (w' & Hrun & Hv).
    + now rewrite Hsq.
    + now rewrite Hig.
    + exists w'. split; [exact Hrun|].
      unfold same_stdout_view in *.
      rewrite buffer_update_buffer_stderr, controls_update_buffer_stderr,
        (stderr_lines_suppressed w Hi), app_nil_r, Hs, Hsq, He, Ho, Hig in Hv.
      exact Hv.
Qed.

Lemma text_read_prints_nothing (rs : list ready) :
  forallb prints_nothing rs = true -> flat_map text_read rs = [].
Proof.
  induction rs as [|r rs IH]; simpl; [reflexivity|].
  intros H. apply andb_prop in H. destruct H as [Hr Hrs].
  rewrite (IH Hrs), app_nil_r.
  unfold prints_nothing in Hr. unfold text_read, data_chunk.
  destruct (read1 r) as [raw|]; [|reflexivity].
  apply String.eqb_eq in Hr. now rewrite Hr.
Qed.

(** C3, as the code has it: the list command configures the
    empty-output message Comando executado!; when the child prints
    nothing and exits with code 0 the worker puts the exit chunk alone,
    and once [update_buffer] has taken it the buffer is the one
    [execute] left, with its INFO line Running command ..., followed by
    one INFO line with that message, and the controls are enabled. *)
Theorem C3_list_empty_output (os : OS) (clr : bool) (w0 : UpdateWindow)
    (sched : schedule) (before after : list ready) (r : ready) (n : nat) :
  Popen os ["/usr/bin/apt"; "-qq"; "list"; "--upgradable"]
    (dict_merge (environ os) []) = Child sched ->
  List.concat sched = before ++ r :: after ->
  forallb running before = true ->
  forallb prints_nothing (before ++ [r]) = true ->
  poll r = Some 0 ->
  stdout_queue w0 = [] ->
  empty_msg (fst (list_upgradable clr w0)) = Some "Comando executado!"
  /\ run os ["/usr/bin/apt"; "-qq"; "list"; "--upgradable"] []
     = ([Exit 0], Finished)
  /\ buffer (fst (list_upgradable clr w0))
     = mesg "INFO"
         ("Running command " ++ dquote
          ++ "/usr/bin/apt -qq list --upgradable" ++ dquote ++ " ...")%string
       ++ (if clr then [] else buffer w0)
  /\ buffer (window (do_steps (repeat TimerTick n ++ [WorkerPut; TimerTick])
                       (start os (list_upgradable clr w0))))
     = buffer (fst (list_upgradable clr w0))
       ++ mesg "INFO" "Comando executado!"
  /\ controls_enabled
       (window (do_steps (repeat TimerTick n ++ [WorkerPut; TimerTick])
                  (start os (list_upgradable clr w0)))) = true.
Proof.
  intros Hos Hc Hb Hsilent Hp Hq.
  assert (Hrun : run os ["/usr/bin/apt"; "-qq"; "list"; "--upgradable"] []
                 = ([Exit 0], Finished)).
  { unfold run. rewrite Hos.
    assert (Hr : exists raw, read1 r = Some raw).
    { rewrite forallb_app in Hsilent. apply andb_prop in Hsilent.
      destruct Hsilent as [_ Hr]. simpl in Hr. unfold prints_nothing in Hr.
      destruct (read1 r) as [raw|]; [eauto|discriminate]. }
    destruct Hr as [raw Hr].
    rewrite (while_not_done_exit sched before after r raw 0 Hc Hb Hr Hp).
    now rewrite (text_read_prints_nothing _ Hsilent). }
  split; [reflexivity|]. split; [exact Hrun|].
  split; [now destruct clr|].
  set (w1 := fst (list_upgradable clr w0)).
  assert (Hstart : start os (list_upgradable clr w0) = mkSystem w1 [Exit 0]).
  { unfold start. simpl thread_args. simpl thread_env. now rewrite Hrun. }
  rewrite Hstart.
  assert (Hq1 : stdout_queue w1 = []) by (subst w1; now destruct clr).
  assert (Hi1 : ignore_stderr w1 = true) by reflexivity.
  destruct (idle_ticks n w1 [Exit 0] Hq1 Hi1)
    as (w2 & Hidle & Hb2 & Hq2 & Hs2 & He2 & _ & Hi2 & _).
  unfold do_steps in *. rewrite !fold_left_app, Hidle.
  cbn [fold_left do_step pending window].
  destruct (update_buffer_exit_zero_empty (put (Exit 0) w2) "EXIT 0" []
              "Comando executado!") as (w3 & -> & Hb3 & _ & _ & _ & Hc3).
  - unfold put. simpl. now rewrite Hq2, Hq1.
  - reflexivity.
  - unfold put. simpl. now rewrite Hs2.
  - unfold put. simpl. now rewrite He2.
  - simpl. split; [|exact Hc3].
    rewrite Hb3, stderr_lines_suppressed, app_nil_r.
    + unfold put. simpl. now rewrite Hb2.
    + unfold put. simpl. now rewrite Hi2.
Qed.

(** The list command from the initial window, on a system whose child
    prints nothing and exits with code 0. *)
Lemma C3_list_empty_output_witness :
  empty_msg (fst (list_upgradable true init_window))
  = Some "Comando executado!"
  /\ run os_silent ["/usr/bin/apt"; "-qq"; "list"; "--upgradable"] []
     = ([Exit 0], Finished)
  /\ buffer (fst (list_upgradable true init_window))
     = mesg "INFO"
         ("Running command " ++ dquote
          ++ "/usr/bin/apt -qq list --upgradable" ++ dquote ++ " ...")%string
       ++ []
  /\ buffer (window (do_steps (repeat TimerTick 2 ++ [WorkerPut; TimerTick])
                       (start os_silent (list_upgradable true init_window))))
     = buffer (fst (list_upgradable true init_window))
       ++ mesg "INFO" "Comando executado!"
  /\ controls_enabled
       (window (do_steps (repeat TimerTick 2 ++ [WorkerPut; TimerTick])
                  (start os_silent (list_upgradable true init_window))))
     = true.
Proof.
  apply (C3_list_empty_output os_silent true init_window silent_schedule
           [mkReady p_stdout (Some "") None] []
           (mkReady p_stderr (Some "") (Some 0)) 2); reflexivity.
Defined.

(** C3 as stated fails: the message configured for the list command is
    not No upgrades found, and after a silent successful child the
    rendered output is not one INFO line with that text: it is the line
    Running command ... followed by the line Comando executado!. *)
Lemma C3_list_empty_output_counterexample :
  empty_msg (fst (list_upgradable true init_window))
  <> Some "No upgrades found"
  /\ buffer (window (do_steps [WorkerPut; TimerTick]
                       (start os_silent (list_upgradable true init_window))))
     <> mesg "INFO" "No upgrades found"
  /\ count_level "INFO"
       (buffer (window (do_steps [WorkerPut; TimerTick]
                  (start os_silent (list_upgradable true init_window)))))
     = 2%nat.
Proof.
  split; [discriminate|]. split; [discriminate|reflexivity].
Qed.

(** The terminal chunk of a child that exits with a positive code is
    recognised: the ERROR line carries the code and the controls are
    enabled. *)
Lemma update_buffer_Exit_positive (w : UpdateWindow) (q : list string)
    (n : Z) :
  0 < n -> stdout_queue w = chunk_text (Exit n) :: q ->
  exists w',
    update_buffer w = Returned w'
    /\ buffer w'
       = buffer w
         ++ mesg "ERROR" ("Command exited with code " ++ format_d n)%string
         ++ stderr_lines w
    /\ controls_enabled w' = true.
Proof.
  intros Hn Hq.
  destruct (update_buffer_exit_nonzero w (chunk_text (Exit n)) q n Hq)
    as (w' & Hu & Hb & Hc & _ & _).
  - apply exit_code_of_Exit. lia.
  - lia.
  - exists w'. auto.
Qed.

Lemma format_d_opp (N : Z) :
  0 < N -> format_d (- N) = ("-" ++ format_d N)%string.
Proof.
  intros HN. destruct N as [|p|p]; try lia. reflexivity.
Qed.

(** C6, on the code: the full-upgrade command with a child killed by
    signal 9.  The worker puts the exit chunk for -9; the call of
    [update_buffer] that takes it adds the line STDOUT EXIT -9, no
    ERROR line, and leaves the controls disabled, and so does every
    interleaving. *)
Theorem C6_signal_exit_renders_no_error_line :
  fst (run os_killed ["/usr/bin/apt"; "-yqq"; "full-upgrade"]
         [("DEBIAN_FRONTEND", "noninteractive")]) = [Exit (-9)]
  /\ buffer (window (do_steps [WorkerPut; TimerTick]
                       (start os_killed (upgrade init_window))))
     = buffer (fst (upgrade init_window)) ++ mesg "STDOUT" "EXIT -9"
  /\ forall sts : list step,
       controls_enabled
         (window (do_steps sts (start os_killed (upgrade init_window))))
       = false
       /\ count_level "ERROR"
            (buffer (window (do_steps sts
               (start os_killed (upgrade init_window))))) = 0%nat.
Proof.
  split; [reflexivity|]. split; [reflexivity|].
  intros sts.
  destruct (quiet_steps sts (start os_killed (upgrade init_window)))
    as [(Hc & _) He].
  - repeat split.
  - split; [exact Hc | exact He].
Qed.

(** C9: a child that prints the line EXIT 7 and keeps running.  The
    worker, which does not return, puts that text as a data chunk on
    the stdout queue; the call of [update_buffer] that takes it renders
    the ERROR line for exit code 7 instead of a STDOUT line,
    accumulates nothing and enables the controls. *)
Theorem C9_stdout_line_taken_for_exit (os : OS) (args : list string)
    (ign : bool) (omsg emsg : option string)
    (env : list (string * string)) (clr : bool) (w0 : UpdateWindow) :
  Popen os args (dict_merge (environ os) env) = Child exit_text_schedule ->
  stdout_queue w0 = [] ->
  run os args env = ([Data p_stdout "EXIT 7"], Selecting)
  /\ is_terminal (chunk_text (Data p_stdout "EXIT 7")) = true
  /\ buffer (window (do_steps [WorkerPut; TimerTick]
                       (start os (execute args ign omsg emsg env clr w0))))
     = buffer (fst (execute args ign omsg emsg env clr w0))
       ++ mesg "ERROR" "Command exited with code 7"
       ++ stderr_lines (fst (execute args ign omsg emsg env clr w0))
  /\ stdout (window (do_steps [WorkerPut; TimerTick]
                       (start os (execute args ign omsg emsg env clr w0))))
     = ""
  /\ controls_enabled
       (window (do_steps [WorkerPut; TimerTick]
                  (start os (execute args ign omsg emsg env clr w0))))
     = true.
Proof.
  intros Hos Hq.
  assert (Hrun : run os args env = ([Data p_stdout "EXIT 7"], Selecting)).
  { unfold run. now rewrite Hos. }
  split; [exact Hrun|]. split; [reflexivity|].
  set (w1 := fst (execute args ign omsg emsg env clr w0)).
  assert (Hstart : start os (execute args ign omsg emsg env clr w0)
                   = mkSystem w1 [Data p_stdout "EXIT 7"]).
  { unfold start. simpl thread_args. simpl thread_env. now rewrite Hrun. }
  rewrite Hstart. unfold do_steps.
  cbn [fold_left do_step pending window].
  assert (Hq1 : stdout_queue (put (Data p_stdout "EXIT 7") w1) = ["EXIT 7"]).
  { subst w1. unfold put. simpl. destruct clr; simpl; now rewrite Hq. }
  destruct (update_buffer_exit_nonzero (put (Data p_stdout "EXIT 7") w1)
              "EXIT 7" [] 7 Hq1 eq_refl)
    as (w2 & -> & Hb & Hc & _ & Hs); [lia|].
  simpl window_of. rewrite Hb, Hs. split; [|split; [|exact Hc]].
  - subst w1. unfold stderr_lines. simpl. now destruct clr.
  - subst w1. now destruct clr.
Qed.

(** The update command from the initial window. *)
Lemma C9_stdout_line_taken_for_exit_witness :
  run os_exit_text ["/usr/bin/apt"; "-y"; "update"]
    [("DEBIAN_FRONTEND", "noninteractive")]
  = ([Data p_stdout "EXIT 7"], Selecting)
  /\ is_terminal (chunk_text (Data p_stdout "EXIT 7")) = true
  /\ buffer (window (do_steps [WorkerPut; TimerTick]
                       (start os_exit_text (update true init_window))))
     = buffer (fst (update true init_window))
       ++ mesg "ERROR" "Command exited with code 7"
       ++ stderr_lines (fst (update true init_window))
  /\ stdout (window (do_steps [WorkerPut; TimerTick]
                       (start os_exit_text (update true init_window))))
     = ""
  /\ controls_enabled
       (window (do_steps [WorkerPut; TimerTick]
                  (start os_exit_text (update true init_window))))
     = true.
Proof.
  apply (C9_stdout_line_taken_for_exit os_exit_text
           ["/usr/bin/apt"; "-y"; "update"] false None None
           [("DEBIAN_FRONTEND", "noninteractive")] true init_window);
    reflexivity.
Defined.

(** C10: when [p.poll()] gives -N for a child ended by a signal, the
    worker returns with the exit chunk for -N as its last put; its
    text, EXIT -N, does not match the pattern of line 208, so the call
    of [update_buffer] that takes it renders it as a STDOUT line,
    appends it to the accumulated stdout and leaves the controls as
    they are; and when no other string is taken for a terminal chunk,
    no interleaving enables the controls or renders an ERROR line. *)
Theorem C10_signal_exit_not_recognised (N : Z) (sched : schedule)
    (before after : list ready) (r : ready) (raw : string)
    (w : UpdateWindow) (sts : list step) :
  0 < N ->
  List.concat sched = before ++ r :: after ->
  forallb running before = true ->
  read1 r = Some raw ->
  poll r = Some (- N) ->
  forallb (fun c => negb (unlocks c)) (flat_map text_read (before ++ [r]))
  = true ->
  controls_enabled w = false ->
  forallb (fun t => negb (is_terminal t)) (stdout_queue w) = true ->
  while_not_done sched
  = (flat_map text_read (before ++ [r]) ++ [Exit (- N)], Finished)
  /\ chunk_text (Exit (- N)) = ("EXIT -" ++ format_d N)%string
  /\ fullmatch_EXIT (chunk_text (Exit (- N))) = None
  /\ (forall (w1 : UpdateWindow) (q : list string),
        stdout_queue w1 = chunk_text (Exit (- N)) :: q ->
        exists w2,
          update_buffer w1 = Returned w2
          /\ buffer w2
             = buffer w1 ++ mesg "STDOUT" (chunk_text (Exit (- N)))
               ++ stderr_lines w1
          /\ stdout w2 = (stdout w1 ++ chunk_text (Exit (- N)))%string
          /\ controls_enabled w2 = controls_enabled w1)
  /\ controls_enabled
       (window (do_steps sts (mkSystem w (fst (while_not_done sched)))))
     = false
  /\ count_level "ERROR"
       (buffer (window (do_steps sts
          (mkSystem w (fst (while_not_done sched))))))
     = count_level "ERROR" (buffer w).
Proof.
  intros HN Hc Hb Hr Hp Hdata Hw Hq.
  pose proof (while_not_done_exit sched before after r raw (- N) Hc Hb Hr Hp)
    as Hrun.
  assert (Hno : fullmatch_EXIT (chunk_text (Exit (- N))) = None)
    by (apply fullmatch_EXIT_negative; lia).
  split; [exact Hrun|].
  split; [simpl; now rewrite (format_d_opp N HN)|].
  split; [exact Hno|]. split.
  - intros w1 q Hq1.
    destruct (update_buffer_data w1 (chunk_text (Exit (- N))) q Hq1)
      as (w2 & Hu & Hb2 & Hs2 & _ & Hc2).
    + unfold is_terminal. now rewrite Hno.
    + exists w2. auto.
  - rewrite Hrun. simpl fst.
    destruct (quiet_steps sts
                (mkSystem w (flat_map text_read (before ++ [r])
                             ++ [Exit (- N)]))) as [(Hc' & _) He].
    + unfold quiet. simpl window. simpl pending.
      repeat split; auto.
      rewrite forallb_app, Hdata. simpl. unfold unlocks, is_terminal.
      cbn [chunk_queue]. now rewrite Hno.
    + split; [exact Hc' | exact He].
Qed.

(** The full-upgrade command with a child killed by signal 9. *)
Lemma C10_signal_exit_not_recognised_witness :
  while_not_done killed_schedule = ([Exit (-9)], Finished)
  /\ chunk_text (Exit (-9)) = "EXIT -9"
  /\ controls_enabled
       (window (do_steps [WorkerPut; TimerTick; TimerTick]
          (mkSystem (fst (upgrade init_window))
             (fst (while_not_done killed_schedule)))))
     = false.
Proof.
  destruct (C10_signal_exit_not_recognised 9 killed_schedule []
              [] (mkReady p_stdout (Some "") (Some (-9))) ""
              (fst (upgrade init_window))
              [WorkerPut; TimerTick; TimerTick])
    as (Hrun & Htext & _ & _ & Hc & _); try reflexivity.
  split; [exact Hrun|]. split; [exact Htext | exact Hc].
Defined.

(** *** No STDOUT line while nothing is accumulated *)

Lemma append_empty (a b : string) :
  (a ++ b)%string = "" -> a = "" /\ b = "".
Proof.
  destruct a; simpl; [auto|discriminate].
Qed.

(** A call that takes a terminal chunk adds no STDOUT line and leaves
    [self.stdout] as it is. *)
Lemma update_buffer_terminal_frame (w : UpdateWindow) (text : string)
    (q : list string) :
  stdout_queue w = text :: q -> is_terminal text = true ->
  stdout (window_of (update_buffer w)) = stdout w
  /\ stdout_queue (window_of (update_buffer w)) = q
  /\ count_level "STDOUT" (buffer (window_of (update_buffer w)))
     = count_level "STDOUT" (buffer w).
Proof.
  intros Hq Ht. unfold update_buffer, update_buffer_stdout. rewrite Hq.
  unfold is_terminal in Ht.
  destruct (fullmatch_EXIT text) as [digits|]; [|discriminate].
  assert (Hfin : forall w1 : UpdateWindow,
            stdout w1 = stdout w -> stdout_queue w1 = q ->
            count_level "STDOUT" (buffer w1)
            = count_level "STDOUT" (buffer w) ->
            stdout (update_buffer_stderr w1) = stdout w
            /\ stdout_queue (update_buffer_stderr w1) = q
            /\ count_level "STDOUT" (buffer (update_buffer_stderr w1))
               = count_level "STDOUT" (buffer w)).
  { intros w1 H1 H2 H3.
    destruct (stdout_update_buffer_stderr w1) as (Hs & Hsq & _).
    rewrite Hs, Hsq, buffer_update_buffer_stderr, count_level_app,
      count_level_stderr_lines by auto.
    repeat split; auto. lia. }
  destruct (int digits) as [n|]; [|simpl; auto].
  unfold classify_exit.
  destruct (negb (n =? 0)).
  - simpl window_of. apply Hfin; try reflexivity.
    change (buffer (unlock ?x)) with (buffer x).
    rewrite buffer_append_mesg, count_level_app. simpl buffer.
    change (count_level "STDOUT" (mesg "ERROR" ?t)) with 0%nat. lia.
  - change (stdout (set_stdout_queue q w)) with (stdout w).
    change (empty_msg (set_stdout_queue q w)) with (empty_msg w).
    change (output_msg (set_stdout_queue q w)) with (output_msg w).
    destruct (String.eqb (stdout w) ""), (empty_msg w) as [m|],
      (output_msg w) as [o|]; simpl window_of;
      try (apply Hfin; try reflexivity;
           change (buffer (unlock ?x)) with (buffer x);
           rewrite buffer_append_mesg, count_level_app; simpl buffer;
           change (count_level "STDOUT" (mesg "INFO" ?t)) with 0%nat; lia).
    repeat split. simpl buffer. now apply count_level_snoc_markup.
Qed.

Lemma stdout_clean_step (b0 : nat) (st : step) (s : system) :
  stdout_clean b0 s -> stdout_clean b0 (do_step st s).
Proof.
  intros (Hq & Hp & Hb). destruct st; unfold do_step.
  - destruct (pending s) as [|c rest] eqn:Hpend.
    + unfold stdout_clean. now rewrite Hpend.
    + simpl in Hp. apply andb_prop in Hp. destruct Hp as [Hc Hrest].
      unfold stdout_clean, put. simpl window. simpl pending.
      destruct (chunk_queue c); simpl; repeat split; auto.
      rewrite forallb_app, Hq. simpl. now rewrite Hc.
  - unfold stdout_clean. simpl window. simpl pending.
    destruct (stdout_queue (window s)) as [|text q] eqn:Hsq.
    + rewrite (update_buffer_idle (window s) Hsq). simpl window_of.
      destruct (stdout_update_buffer_stderr (window s)) as (Hs & Hsq' & _).
      rewrite Hs, Hsq', Hsq, buffer_update_buffer_stderr, count_level_app,
        count_level_stderr_lines by auto.
      repeat split; auto. intros H0. rewrite (Hb H0). lia.
    + simpl in Hq. apply andb_prop in Hq. destruct Hq as [Hne Hq].
      destruct (is_terminal text) eqn:Ht.
      * destruct (update_buffer_terminal_frame (window s) text q Hsq Ht)
          as (Hs & Hsq' & Hc).
        rewrite Hs, Hsq', Hc. repeat split; auto.
      * destruct (update_buffer_data (window s) text q Hsq Ht)
          as (w' & -> & _ & Hs & Hsq' & _).
        simpl window_of. rewrite Hs, Hsq'. repeat split; auto.
        intros H0. apply append_empty in H0. destruct H0 as [_ H0].
        subst text. discriminate Hne.
Qed.

Lemma stdout_clean_steps (b0 : nat) (sts : list step) (s : system) :
  stdout_clean b0 s -> stdout_clean b0 (do_steps sts s).
Proof.
  revert s. induction sts as [|st sts IH]; intros s Hs; simpl; [exact Hs|].
  apply IH. now apply stdout_clean_step.
Qed.

Lemma nonempty_for_keys (keys : list ready) :
  forallb (fun c => nonempty (chunk_text c)) (fst (for_keys keys)) = true.
Proof.
  assert (Hd : forall k raw,
            forallb (fun c => nonempty (chunk_text c)) (data_chunk k raw)
            = true).
  { intros k raw. unfold data_chunk. now destruct (rstrip raw). }
  induction keys as [|r keys IH]; simpl; [reflexivity|].
  destruct (read1 r) as [raw|]; [|reflexivity].
  destruct (poll r) as [n|].
  - simpl. rewrite forallb_app, Hd. reflexivity.
  - destruct (for_keys keys) as [puts e]. simpl in *.
    now rewrite forallb_app, Hd, IH.
Qed.

Lemma nonempty_run (os : OS) (args : list string)
    (env : list (string * string)) :
  forallb (fun c => nonempty (chunk_text c)) (fst (run os args env)) = true.
Proof.
  unfold run. destruct (Popen os args (dict_merge (environ os) env));
    [reflexivity|].
  rewrite while_not_done_concat. apply nonempty_for_keys.
Qed.

(** As long as nothing has been accumulated from stdout during a run,
    [update_buffer] has rendered no STDOUT line since [execute]. *)
Lemma no_stdout_line_while_empty (os : OS) (args : list string)
    (ign : bool) (omsg emsg : option string)
    (env : list (string * string)) (clr : bool) (w0 : UpdateWindow)
    (sts : list step) :
  forallb nonempty (stdout_queue w0) = true ->
  stdout (window (do_steps sts
            (start os (execute args ign omsg emsg env clr w0)))) = "" ->
  count_level "STDOUT"
    (buffer (window (do_steps sts
       (start os (execute args ign omsg emsg env clr w0)))))
  = count_level "STDOUT"
      (buffer (fst (execute args ign omsg emsg env clr w0))).
Proof.
  intros Hq.
  apply (stdout_clean_steps
           (count_level "STDOUT"
              (buffer (fst (execute args ign omsg emsg env clr w0))))
           sts (start os (execute args ign omsg emsg env clr w0))).
  unfold stdout_clean, start. simpl window. simpl pending.
  simpl thread_args. simpl thread_env.
  split; [destruct clr; exact Hq|].
  split; [apply nonempty_run | reflexivity].
Qed.

End Interleaving.

(** * Further properties of the code *)

(** ** What the worker puts *)

Section WorkerChunks.

Lemma rstrip_split (s : string) :
  exists ws, s = (rstrip s ++ ws)%string /\ all_space ws = true.
Proof.
  induction s as [|c s IH]; simpl.
  - exists EmptyString. split; reflexivity.
  - destruct IH as (ws & Hs & Hws).
    destruct (rstrip s) as [|a r] eqn:Hr.
    + simpl in Hs. subst s.
      destruct (isspace c) eqn:Hc.
      * exists (String c ws). simpl. now rewrite Hc, Hws.
      * exists ws. split; [reflexivity | exact Hws].
    + exists ws. split; [|exact Hws]. simpl. f_equal. exact Hs.
Qed.

Lemma rstrip_no_trailing_space (s : string) :
  ends_with_space (rstrip s) = false.
Proof.
  induction s as [|c s IH]; simpl; [reflexivity|].
  destruct (rstrip s) as [|a r] eqn:Hr.
  - destruct (isspace c) eqn:Hc; simpl; auto.
  - exact IH.
Qed.

Lemma stripped_data_chunk (k : fileobj) (raw : string) :
  forallb stripped (data_chunk k raw) = true.
Proof.
  unfold data_chunk. pose proof (rstrip_no_trailing_space raw) as H.
  destruct (rstrip raw) as [|a r]; [reflexivity|].
  cbn [forallb]. unfold stripped. rewrite H. reflexivity.
Qed.

Lemma stripped_for_keys (keys : list ready) :
  forallb stripped (fst (for_keys keys)) = true.
Proof.
  induction keys as [|r keys IH]; simpl; [reflexivity|].
  destruct (read1 r) as [raw|]; [|reflexivity].
  destruct (poll r) as [n|].
  - simpl. now rewrite forallb_app, stripped_data_chunk.
  - destruct (for_keys keys) as [puts e]. simpl in *.
    now rewrite forallb_app, stripped_data_chunk, IH.
Qed.

(** X1: what lines 144 to 150 make of one read.  The text read is the
    chunk followed by whitespace only; a read of whitespace only gives
    no chunk; a chunk is tagged with the pipe it was read from, is not
    empty and does not end in whitespace.  So every chunk [run] puts,
    for every child, is of that kind. *)
Theorem X1_data_chunks_are_stripped (os : OS) (args : list string)
    (env : list (string * string)) (k : fileobj) (raw : string) :
  (exists ws,
     all_space ws = true
     /\ match data_chunk k raw with
        | [] => raw = ws
        | [Data k' t] =>
            k' = k /\ raw = (t ++ ws)%string
            /\ t <> "" /\ ends_with_space t = false
        | _ => False
        end)
  /\ forallb stripped (fst (run os args env)) = true.
Proof.
  split.
  - destruct (rstrip_split raw) as (ws & Hs & Hws).
    exists ws. split; [exact Hws|].
    pose proof (rstrip_no_trailing_space raw) as Hend.
    unfold data_chunk. destruct (rstrip raw) as [|a r].
    + exact Hs.
    + repeat split; auto. discriminate.
  - unfold run.
    destruct (Popen os args (dict_merge (environ os) env)); [reflexivity|].
    rewrite while_not_done_concat. apply stripped_for_keys.
Qed.

(** X2: when the bytes of a read do not decode before any exit status
    has shown, [run] ends by the exception: it has put the data read so
    far and no exit chunk; and when none of that data is taken for a
    terminal chunk, no interleaving enables disabled controls. *)
Theorem X2_undecodable_read_ends_the_worker (sched : schedule)
    (before after : list ready) (r : ready) (w : UpdateWindow)
    (sts : list step) :
  List.concat sched = before ++ r :: after ->
  forallb running before = true ->
  read1 r = None ->
  forallb (fun c => negb (unlocks c)) (flat_map text_read before) = true ->
  controls_enabled w = false ->
  forallb (fun t => negb (is_terminal t)) (stdout_queue w) = true ->
  while_not_done sched = (flat_map text_read before, Died)
  /\ forallb is_data (fst (while_not_done sched)) = true
  /\ controls_enabled
       (window (do_steps sts (mkSystem w (fst (while_not_done sched)))))
     = false.
Proof.
  intros Hc Hb Hr Hdata Hw Hq.
  assert (Hrun : while_not_done sched = (flat_map text_read before, Died)).
  { rewrite while_not_done_concat, Hc, for_keys_app.
    rewrite (for_keys_running before Hb). simpl. rewrite Hr. simpl.
    now rewrite app_nil_r. }
  split; [exact Hrun|]. rewrite Hrun. simpl fst.
  split; [apply is_data_text_read|].
  destruct (quiet_steps sts (mkSystem w (flat_map text_read before)))
    as [(Hc' & _) _]; [|exact Hc'].
  unfold quiet. simpl. auto.
Qed.

(** The update command with a child that writes a line and then bytes
    that do not decode. *)
Lemma X2_undecodable_read_ends_the_worker_witness :
  while_not_done undecodable_schedule = ([Data p_stdout "Get:1"], Died)
  /\ controls_enabled
       (window (do_steps [WorkerPut; TimerTick; TimerTick]
          (mkSystem (fst (update true init_window))
             (fst (while_not_done undecodable_schedule))))) = false.
Proof.
  destruct (X2_undecodable_read_ends_the_worker undecodable_schedule
              [mkReady p_stdout (Some ("Get:1" ++ newline)%string) None] []
              (mkReady p_stdout None None) (fst (update true init_window))
              [WorkerPut; TimerTick; TimerTick])
    as (Hrun & _ & Hc); try reflexivity.
  split; [exact Hrun | exact Hc].
Defined.

End WorkerChunks.

(** ** One call of update_buffer, in general *)

Section EveryTick.

(** The stdout half of a call, whatever it finds: the head of the
    stdout queue is gone, the buffer has at most one more line, the
    buttons are all enabled or left as they were. *)
Lemma update_buffer_stdout_shape (w : UpdateWindow) :
  stdout_queue (window_of (update_buffer_stdout w)) = tl (stdout_queue w)
  /\ (exists added,
        buffer (window_of (update_buffer_stdout w)) = buffer w ++ added
        /\ (List.length added <= 2)%nat)
  /\ (controls_enabled (window_of (update_buffer_stdout w)) = true
      \/ controls_enabled (window_of (update_buffer_stdout w))
         = controls_enabled w).
Proof.
  assert (Hnil : forall w1 : UpdateWindow,
            buffer w1 = buffer w ->
            exists added, buffer w1 = buffer w ++ added
                          /\ (List.length added <= 2)%nat).
  { intros w1 H. exists []. rewrite app_nil_r. simpl. split; [exact H|lia]. }
  assert (Hmesg : forall level text (w1 : UpdateWindow),
            buffer w1 = buffer w ->
            exists added,
              buffer (append_mesg level text w1) = buffer w ++ added
              /\ (List.length added <= 2)%nat).
  { intros level text w1 H. exists (mesg level text).
    rewrite buffer_append_mesg, H. simpl. split; [reflexivity|lia]. }
  unfold update_buffer_stdout.
  destruct (stdout_queue w) as [|text q] eqn:Hq.
  { simpl. split; [exact Hq|]. split; [now apply Hnil | now right]. }
  destruct (fullmatch_EXIT text) as [digits|].
  - destruct (int digits) as [n|].
    2:{ simpl. split; [reflexivity|]. split; [now apply Hnil | now right]. }
    unfold classify_exit.
    destruct (negb (n =? 0)).
    + simpl window_of. split; [reflexivity|]. split; [|now left].
      change (buffer (unlock ?x)) with (buffer x). now apply Hmesg.
    + change (stdout (set_stdout_queue q w)) with (stdout w).
      change (empty_msg (set_stdout_queue q w)) with (empty_msg w).
      change (output_msg (set_stdout_queue q w)) with (output_msg w).
      destruct (String.eqb (stdout w) ""), (empty_msg w) as [m|],
        (output_msg w) as [o|]; simpl window_of;
        (split; [reflexivity|]);
        try (split; [|now left];
             change (buffer (unlock ?x)) with (buffer x);
             solve [now apply Hmesg | now apply Hnil]).
      split; [|now right]. simpl buffer.
      eexists. split; [reflexivity|]. simpl. lia.
  - simpl window_of. split; [reflexivity|]. split; [|now right].
    now apply Hmesg.
Qed.

Lemma stderr_queue_update_buffer_stderr (w : UpdateWindow) :
  stderr_queue (update_buffer_stderr w) = tl (stderr_queue w).
Proof.
  unfold update_buffer_stderr.
  destruct (stderr_queue w) as [|text q] eqn:Hq; [now rewrite Hq|].
  simpl. now destruct (ignore_stderr w).
Qed.

Lemma length_stderr_lines (w : UpdateWindow) :
  (List.length (stderr_lines w) <= 2)%nat.
Proof.
  unfold stderr_lines. destruct (stderr_queue w); [simpl; lia|].
  destruct (ignore_stderr w); simpl; lia.
Qed.

(** X3: one call of [update_buffer] takes at most one string from each
    queue.  The head of the stdout queue is always taken; the head of
    the stderr queue is taken when the call returns and left when the
    stdout half raises. *)
Theorem X3_one_string_per_queue_per_call (w : UpdateWindow) :
  stdout_queue (window_of (update_buffer w)) = tl (stdout_queue w)
  /\ match update_buffer w with
     | Returned w' => stderr_queue w' = tl (stderr_queue w)
     | Raised w' => stderr_queue w' = stderr_queue w
     end.
Proof.
  destruct (update_buffer_stdout_shape w) as (Hq & _ & _).
  destruct (update_buffer_stdout_frame w) as (_ & _ & He & _).
  unfold update_buffer.
  destruct (update_buffer_stdout w) as [w1|w1]; simpl in *.
  - destruct (stdout_update_buffer_stderr w1) as (_ & Hsq & _).
    rewrite Hsq, stderr_queue_update_buffer_stderr, He. auto.
  - auto.
Qed.

Lemma update_buffer_appends (w : UpdateWindow) :
  exists added, buffer (window_of (update_buffer w)) = buffer w ++ added.
Proof.
  destruct (update_buffer_stdout_shape w) as (_ & (added & Hb & _) & _).
  unfold update_buffer.
  destruct (update_buffer_stdout w) as [w1|w1]; simpl in *.
  - exists (added ++ stderr_lines w1).
    now rewrite buffer_update_buffer_stderr, Hb, app_assoc.
  - exists added. exact Hb.
Qed.

Lemma stderr_texts_app (a b : list chunk) :
  stderr_texts (a ++ b) = stderr_texts a ++ stderr_texts b.
Proof.
  unfold stderr_texts. apply flat_map_app.
Qed.

(** X4: a call of [update_buffer] only appends to the buffer, and at
    most two lines (four insertions): what was rendered is never
    removed or reordered by the poller. *)
Theorem X4_buffer_only_grows (w : UpdateWindow) :
  exists added,
    buffer (window_of (update_buffer w)) = buffer w ++ added
    /\ (List.length added <= 4)%nat.
Proof.
  destruct (update_buffer_stdout_shape w) as (_ & (added & Hb & Hl) & _).
  unfold update_buffer.
  destruct (update_buffer_stdout w) as [w1|w1]; simpl in *.
  - exists (added ++ stderr_lines w1).
    rewrite buffer_update_buffer_stderr, Hb, app_assoc, length_app.
    pose proof (length_stderr_lines w1). split; [reflexivity|lia].
  - exists added. split; [exact Hb|lia].
Qed.

(** X5: a call of [update_buffer] never disables the controls, and it
    enables disabled controls only by taking from the stdout queue a
    string that matches the pattern of line 208, whose code is never
    negative. *)
Theorem X5_controls_enabled_only_by_terminal (w : UpdateWindow) :
  (controls_enabled w = true ->
   controls_enabled (window_of (update_buffer w)) = true)
  /\ (controls_enabled w = false ->
      controls_enabled (window_of (update_buffer w)) = true ->
      exists text q n,
        stdout_queue w = text :: q
        /\ exit_code_of text = Some n /\ 0 <= n).
Proof.
  assert (Hc : controls_enabled (window_of (update_buffer w))
               = controls_enabled (window_of (update_buffer_stdout w))).
  { unfold update_buffer.
    destruct (update_buffer_stdout w) as [w1|w1]; simpl; [|reflexivity].
    apply controls_update_buffer_stderr. }
  rewrite Hc. split.
  - intros Hw.
    destruct (update_buffer_stdout_shape w) as (_ & _ & [H|H]);
      [exact H | now rewrite H].
  - intros Hw Hen.
    destruct (stdout_queue w) as [|text q] eqn:Hq.
    + unfold update_buffer_stdout in Hen. rewrite Hq in Hen.
      unfold controls_enabled in *. simpl in Hen. congruence.
    + destruct (is_terminal text) eqn:Ht.
      * destruct (is_terminal_exit_code text Ht) as (n & Hn & Hpos).
        exists text, q, n. auto.
      * rewrite (update_buffer_stdout_data w text q Hq Ht) in Hen.
        unfold controls_enabled in *. simpl in Hen. congruence.
Qed.

(** A locked window that takes the terminal chunk of a failed child,
    and an enabled window with empty queues. *)
Lemma X5_controls_enabled_only_by_terminal_witness :
  controls_enabled (window_of (update_buffer init_window)) = true
  /\ exists text q n,
       stdout_queue (put (Exit 100) (fst (upgrade init_window))) = text :: q
       /\ exit_code_of text = Some n /\ 0 <= n.
Proof.
  split.
  - apply (X5_controls_enabled_only_by_terminal init_window). reflexivity.
  - apply (X5_controls_enabled_only_by_terminal
             (put (Exit 100) (fst (upgrade init_window)))); reflexivity.
Defined.

(** X6: a terminal chunk with code 0 and nothing to say.  When nothing
    was accumulated and no empty-output message is configured, or text
    was accumulated and no non-empty-output message is configured, the
    call adds no line for the exit (only the line of a stderr chunk
    taken in the same call) and enables the controls. *)
Theorem X6_exit_zero_without_message (w : UpdateWindow) (text : string)
    (q : list string) :
  stdout_queue w = text :: q ->
  exit_code_of text = Some 0 ->
  (stdout w = "" /\ empty_msg w = None)
  \/ (stdout w <> "" /\ output_msg w = None) ->
  exists w',
    update_buffer w = Returned w'
    /\ buffer w' = buffer w ++ stderr_lines w
    /\ stdout w' = stdout w
    /\ controls_enabled w' = true
    /\ spinner w' = false.
Proof.
  intros Hq Hcode Hcase. unfold update_buffer.
  rewrite (update_buffer_stdout_exit w text q 0 Hq Hcode).
  unfold classify_exit. simpl negb. cbv iota.
  change (stdout (set_stdout_queue q w)) with (stdout w).
  change (empty_msg (set_stdout_queue q w)) with (empty_msg w).
  change (output_msg (set_stdout_queue q w)) with (output_msg w).
  assert (Hfin : exists w',
            Returned (update_buffer_stderr (unlock (set_stdout_queue q w)))
            = Returned w'
            /\ buffer w' = buffer w ++ stderr_lines w
            /\ stdout w' = stdout w
            /\ controls_enabled w' = true
            /\ spinner w' = false).
  { eexists. split; [reflexivity|].
    rewrite buffer_update_buffer_stderr, controls_update_buffer_stderr.
    destruct (stdout_update_buffer_stderr (unlock (set_stdout_queue q w)))
      as (Hs & _).
    rewrite Hs. repeat split.
    unfold update_buffer_stderr. simpl.
    destruct (stderr_queue w); [reflexivity|].
    now destruct (ignore_stderr w). }
  destruct Hcase as [[Hs He] | [Hs Ho]].
  - replace (String.eqb (stdout w) "") with true by now rewrite Hs.
    rewrite He. exact Hfin.
  - apply String.eqb_neq in Hs. rewrite Hs, Ho.
    destruct (empty_msg w); exact Hfin.
Qed.

(** The update command, which configures no message, after a line of
    output. *)
Lemma X6_exit_zero_without_message_witness :
  let w := mkWindow [] None None false "Fetched 3 lists" ""
             ["EXIT 0"] [] false false false true in
  exists w',
    update_buffer w = Returned w'
    /\ buffer w' = buffer w ++ stderr_lines w
    /\ stdout w' = stdout w
    /\ controls_enabled w' = true
    /\ spinner w' = false.
Proof.
  intros w.
  apply (X6_exit_zero_without_message w "EXIT 0" []); try reflexivity.
  right. split; [discriminate | reflexivity].
Defined.

(** X7: a terminal chunk with code 0 after output, with a
    non-empty-output message configured and no empty-output message:
    line 223 hands [None] to [append_mesg].  The coloured INFO prefix
    is inserted, then [insert] raises: the call does not return, the
    controls keep their state and the stderr queue is not served. *)
Theorem X7_output_msg_without_empty_msg_raises (w : UpdateWindow)
    (text : string) (q : list string) (o : string) :
  stdout_queue w = text :: q ->
  exit_code_of text = Some 0 ->
  stdout w <> "" ->
  output_msg w = Some o ->
  empty_msg w = None ->
  exists w',
    update_buffer w = Raised w'
    /\ buffer w' = buffer w ++ [Markup (color_markup "INFO: " "green")]
    /\ stdout_queue w' = q
    /\ stderr_queue w' = stderr_queue w
    /\ controls_enabled w' = controls_enabled w.
Proof.
  intros Hq Hcode Hout Ho He.
  apply String.eqb_neq in Hout.
  unfold update_buffer.
  rewrite (update_buffer_stdout_exit w text q 0 Hq Hcode).
  unfold classify_exit. simpl negb. cbv iota.
  change (stdout (set_stdout_queue q w)) with (stdout w).
  change (empty_msg (set_stdout_queue q w)) with (empty_msg w).
  change (output_msg (set_stdout_queue q w)) with (output_msg w).
  rewrite Hout, He, Ho. simpl. eexists. repeat split.
Qed.

(** A command run with a non-empty-output message alone. *)
Lemma X7_output_msg_without_empty_msg_raises_witness :
  let w := mkWindow [] (Some "Upgrades:") None false "pkg 1.0" ""
             ["EXIT 0"] ["W: x"] false false false true in
  exists w',
    update_buffer w = Raised w'
    /\ buffer w' = buffer w ++ [Markup (color_markup "INFO: " "green")]
    /\ stdout_queue w' = []
    /\ stderr_queue w' = stderr_queue w
    /\ controls_enabled w' = controls_enabled w.
Proof.
  intros w.
  apply (X7_output_msg_without_empty_msg_raises w "EXIT 0" [] "Upgrades:");
    try reflexivity.
  discriminate.
Defined.

End EveryTick.

(** ** Conservation of output *)

Section Conservation.

Lemma update_buffer_stderr_total (w : UpdateWindow) :
  (stderr (update_buffer_stderr w)
   ++ concat_texts (stderr_queue (update_buffer_stderr w)))%string
  = (stderr w ++ concat_texts (stderr_queue w))%string.
Proof.
  unfold update_buffer_stderr.
  destruct (stderr_queue w) as [|text q] eqn:Hq; [now rewrite Hq|].
  simpl. destruct (ignore_stderr w); simpl; now rewrite append_assoc.
Qed.

Lemma update_buffer_stderr_count (w : UpdateWindow) :
  ignore_stderr w = false ->
  (count_level "STDERR" (buffer (update_buffer_stderr w))
   + List.length (stderr_queue (update_buffer_stderr w)))%nat
  = (count_level "STDERR" (buffer w) + List.length (stderr_queue w))%nat.
Proof.
  intros Hi. rewrite buffer_update_buffer_stderr, count_level_app,
    stderr_queue_update_buffer_stderr.
  unfold stderr_lines. rewrite Hi.
  destruct (stderr_queue w) as [|text q]; simpl.
  - change (count_level "STDERR" []) with 0%nat. lia.
  - change (count_level "STDERR" (mesg "STDERR" text)) with 1%nat. lia.
Qed.

Lemma stderr_step (st : step) (s : system) :
  ignore_stderr (window (do_step st s)) = ignore_stderr (window s)
  /\ stderr_total (do_step st s) = stderr_total s
  /\ (ignore_stderr (window s) = false ->
      stderr_chunks (do_step st s) = stderr_chunks s).
Proof.
  destruct st; unfold do_step.
  - destruct (pending s) as [|c rest] eqn:Hp; [now repeat split|].
    unfold stderr_total, stderr_chunks. simpl window. simpl pending.
    rewrite Hp, stderr_texts_cons. unfold put.
    destruct (chunk_queue c); simpl; repeat split; auto.
    + rewrite concat_texts_app. simpl.
      now rewrite append_empty_r, !append_assoc.
    + intros _. rewrite length_app. simpl. lia.
  - unfold stderr_total, stderr_chunks. simpl window. simpl pending.
    destruct (update_buffer_stdout_frame (window s)) as (Fi & Fe & Fq & Fc).
    unfold update_buffer.
    destruct (update_buffer_stdout (window s)) as [w1|w1]; simpl in *.
    + destruct (stdout_update_buffer_stderr w1) as (_ & _ & _ & _ & Gi).
      split; [congruence|]. split.
      * rewrite <- !append_assoc, update_buffer_stderr_total, Fe, Fq.
        reflexivity.
      * intros Hi. rewrite update_buffer_stderr_count by congruence.
        now rewrite Fc, Fq.
    + repeat split; congruence.
Qed.

Lemma stderr_steps (sts : list step) (s : system) :
  ignore_stderr (window (do_steps sts s)) = ignore_stderr (window s)
  /\ stderr_total (do_steps sts s) = stderr_total s
  /\ (ignore_stderr (window s) = false ->
      stderr_chunks (do_steps sts s) = stderr_chunks s).
Proof.
  revert s. induction sts as [|st sts IH]; intros s; simpl.
  - now repeat split.
  - destruct (stderr_step st s) as (Hi & Ht & Hc).
    destruct (IH (do_step st s)) as (Hi2 & Ht2 & Hc2).
    unfold do_steps in *. repeat split; try congruence.
    intros H. rewrite Hc2, Hc; congruence.
Qed.

(** X8: after [execute] without [ignore_stderr], whatever the child
    does and however worker and poller interleave, every stderr chunk
    is, at any moment, still to be put, on the stderr queue, or
    rendered as one STDERR line: the three numbers add up to what they
    were at the start.  The same holds of the text, whatever the flag:
    accumulated, queued and pending stderr text is conserved in
    order. *)
Theorem X8_stderr_chunk_rendered_once (os : OS) (args : list string)
    (ign : bool) (omsg emsg : option string)
    (env : list (string * string)) (clr : bool) (w0 : UpdateWindow)
    (sts : list step) :
  stderr_chunks
    (do_steps sts (start os (execute args false omsg emsg env clr w0)))
  = (count_level "STDERR" (if clr then [] else buffer w0)
     + List.length (stderr_queue w0)
     + List.length (stderr_texts (fst (run os args env))))%nat
  /\ stderr_total
       (do_steps sts (start os (execute args ign omsg emsg env clr w0)))
     = (concat_texts (stderr_queue w0)
        ++ concat_texts (stderr_texts (fst (run os args env))))%string.
Proof.
  split.
  - destruct (stderr_steps sts
                (start os (execute args false omsg emsg env clr w0)))
      as (_ & _ & Hc).
    rewrite Hc by reflexivity.
    unfold stderr_chunks, start. simpl. now destruct clr.
  - destruct (stderr_steps sts
                (start os (execute args ign omsg emsg env clr w0)))
      as (_ & Ht & _).
    rewrite Ht. unfold stderr_total, start. simpl. now destruct clr.
Qed.

Lemma data_texts_app (a b : list string) :
  data_texts (a ++ b) = data_texts a ++ data_texts b.
Proof.
  unfold data_texts. apply filter_app.
Qed.

Lemma stdout_texts_cons (c : chunk) (cs : list chunk) :
  stdout_texts (c :: cs)
  = match chunk_queue c with
    | p_stdout => chunk_text c :: stdout_texts cs
    | p_stderr => stdout_texts cs
    end.
Proof.
  unfold stdout_texts. simpl. now destruct (chunk_queue c).
Qed.

Lemma stdout_total_step (st : step) (s : system) :
  stdout_total (do_step st s) = stdout_total s.
Proof.
  destruct st; unfold do_step.
  - destruct (pending s) as [|c rest] eqn:Hp; [reflexivity|].
    unfold stdout_total. simpl window. simpl pending.
    rewrite Hp, stdout_texts_cons. unfold put.
    destruct (chunk_queue c); simpl; [|reflexivity].
    rewrite data_texts_app, concat_texts_app, !append_assoc.
    f_equal. f_equal. unfold data_texts. simpl.
    destruct (negb (is_terminal (chunk_text c))); simpl;
      now rewrite ?append_empty_r.
  - unfold stdout_total. simpl window. simpl pending.
    destruct (stdout_queue (window s)) as [|text q] eqn:Hsq.
    + rewrite (update_buffer_idle (window s) Hsq). simpl window_of.
      destruct (stdout_update_buffer_stderr (window s)) as (Hs & Hsq' & _).
      now rewrite Hs, Hsq', Hsq.
    + destruct (is_terminal text) eqn:Ht.
      * destruct (update_buffer_terminal_frame (window s) text q Hsq Ht)
          as (Hs & Hsq' & _).
        rewrite Hs, Hsq'. unfold data_texts. simpl. now rewrite Ht.
      * destruct (update_buffer_data (window s) text q Hsq Ht)
          as (w' & -> & _ & Hs & Hsq' & _).
        simpl window_of. rewrite Hs, Hsq'. unfold data_texts. simpl.
        rewrite Ht. simpl. now rewrite !append_assoc.
Qed.

(** X9: no stdout text is lost, duplicated or reordered between the
    worker and [self.stdout].  For every system and every interleaving,
    the text accumulated in [self.stdout], followed by the strings on
    the stdout queue and those still to be put that do not match the
    pattern of line 208, is the same before and after: strings that do
    match are dropped, all others are accumulated in the order of the
    puts. *)
Theorem X9_stdout_text_conserved (s : system) (sts : list step) :
  stdout_total (do_steps sts s) = stdout_total s.
Proof.
  revert s. induction sts as [|st sts IH]; intros s; simpl; [reflexivity|].
  unfold do_steps in *. now rewrite IH, stdout_total_step.
Qed.

End Conservation.

(** ** Rendering in order, and a run from start to end *)

Section InOrder.

Lemma do_steps_app (a b : list step) (s : system) :
  do_steps (a ++ b) s = do_steps b (do_steps a s).
Proof.
  unfold do_steps. apply fold_left_app.
Qed.

(** What a returning call leaves of the stderr state. *)
Lemma update_buffer_data_stderr (w : UpdateWindow) (text : string)
    (q : list string) :
  stdout_queue w = text :: q -> is_terminal text = false ->
  ignore_stderr (window_of (update_buffer w)) = ignore_stderr w
  /\ stderr_queue (window_of (update_buffer w)) = tl (stderr_queue w)
  /\ empty_msg (window_of (update_buffer w)) = empty_msg w
  /\ output_msg (window_of (update_buffer w)) = output_msg w.
Proof.
  intros Hq Ht. unfold update_buffer.
  rewrite (update_buffer_stdout_data w text q Hq Ht). simpl window_of.
  rewrite stderr_queue_update_buffer_stderr.
  destruct (stdout_update_buffer_stderr
              (append_mesg "STDOUT" text
                 (set_stdout (stdout w ++ text)%string
                    (set_stdout_queue q w))))
    as (_ & _ & He & Ho & Hi).
  rewrite He, Ho, Hi. repeat split.
Qed.

(** Calls of [update_buffer] while the heads of the stdout queue are
    ordinary output. *)
Lemma ticks_render_in_order (ts : list string) (w : UpdateWindow)
    (rest : list string) (pend : list chunk) :
  stdout_queue w = ts ++ rest ->
  forallb (fun t => negb (is_terminal t)) ts = true ->
  exists w',
    do_steps (repeat TimerTick (List.length ts)) (mkSystem w pend)
    = mkSystem w' pend
    /\ buffer w'
       = buffer w ++ render_ticks (ignore_stderr w) ts (stderr_queue w)
    /\ stdout w' = (stdout w ++ concat_texts ts)%string
    /\ stdout_queue w' = rest
    /\ stderr_queue w' = skipn (List.length ts) (stderr_queue w)
    /\ ignore_stderr w' = ignore_stderr w
    /\ empty_msg w' = empty_msg w
    /\ output_msg w' = output_msg w
    /\ controls_enabled w' = controls_enabled w.
Proof.
  revert w. induction ts as [|t ts IH]; intros w Hq Hts.
  - exists w. simpl. rewrite app_nil_r, append_empty_r.
    repeat split. exact Hq.
  - simpl in Hq, Hts. apply andb_prop in Hts. destruct Hts as [Ht Hts].
    apply negb_true_iff in Ht.
    destruct (update_buffer_data w t (ts ++ rest) Hq Ht)
      as (w1 & Hu & Hb1 & Hs1 & Hq1 & Hc1).
    destruct (update_buffer_data_stderr w t (ts ++ rest) Hq Ht)
      as (Hi1 & He1 & Hem1 & Hom1).
    rewrite Hu in Hi1, He1, Hem1, Hom1. simpl window_of in *.
    destruct (IH w1 Hq1 Hts)
      as (w' & Hrun & Hb & Hs & Hq' & He & Hi & Hem & Hom & Hc).
    exists w'. split.
    + simpl List.length. simpl repeat. unfold do_steps. simpl fold_left.
      rewrite Hu. exact Hrun.
    + rewrite Hb, Hs, Hq', He, Hi, Hem, Hom, Hc, Hb1, Hs1, He1, Hi1, Hem1,
        Hom1, Hc1.
      repeat split.
      * simpl render_ticks. unfold stderr_lines.
        rewrite <- !app_assoc. reflexivity.
      * simpl concat_texts. now rewrite append_assoc.
      * simpl List.length.
        destruct (stderr_queue w); simpl; [apply skipn_nil | reflexivity].
Qed.

(** X10: the poller renders ordinary stdout strings one per call, in
    the order of the queue.  When the stdout queue starts with the
    strings [ts], none of which matches the pattern of line 208, then
    after as many calls as there are strings the buffer has gained,
    per call, the STDOUT line of the string and (unless stderr is
    suppressed) the STDERR line of the head of the stderr queue;
    [self.stdout] has gained the strings concatenated; the rest of the
    stdout queue is left and the controls are as they were. *)
Theorem X10_stdout_rendered_in_queue_order (ts : list string)
    (w : UpdateWindow) (rest : list string) (pend : list chunk) :
  stdout_queue w = ts ++ rest ->
  forallb (fun t => negb (is_terminal t)) ts = true ->
  buffer (window (do_steps (repeat TimerTick (List.length ts))
                    (mkSystem w pend)))
  = buffer w ++ render_ticks (ignore_stderr w) ts (stderr_queue w)
  /\ stdout (window (do_steps (repeat TimerTick (List.length ts))
                       (mkSystem w pend)))
     = (stdout w ++ concat_texts ts)%string
  /\ stdout_queue (window (do_steps (repeat TimerTick (List.length ts))
                             (mkSystem w pend)))
     = rest
  /\ controls_enabled
       (window (do_steps (repeat TimerTick (List.length ts))
                  (mkSystem w pend)))
     = controls_enabled w.
Proof.
  intros Hq Hts.
  destruct (ticks_render_in_order ts w rest pend Hq Hts)
    as (w' & -> & Hb & Hs & Hq' & _ & _ & _ & _ & Hc).
  simpl window. auto.
Qed.

(** Two lines of output and a warning queued, the exit chunk behind
    them. *)
Lemma X10_stdout_rendered_in_queue_order_witness :
  let w := mkWindow [] None None false "" "" ["Hit:1"; "Get:2"; "EXIT 0"]
             ["W: slow"] false false false true in
  buffer (window (do_steps (repeat TimerTick 2) (mkSystem w [])))
  = mesg "STDOUT" "Hit:1" ++ mesg "STDERR" "W: slow"
    ++ mesg "STDOUT" "Get:2"
  /\ stdout (window (do_steps (repeat TimerTick 2) (mkSystem w [])))
     = "Hit:1Get:2"
  /\ stdout_queue (window (do_steps (repeat TimerTick 2) (mkSystem w [])))
     = ["EXIT 0"]
  /\ controls_enabled
       (window (do_steps (repeat TimerTick 2) (mkSystem w []))) = false.
Proof.
  intros w.
  apply (X10_stdout_rendered_in_queue_order ["Hit:1"; "Get:2"] w
           ["EXIT 0"] []); reflexivity.
Defined.

Lemma worker_puts_all (pend : list chunk) (w : UpdateWindow) :
  do_steps (repeat WorkerPut (List.length pend)) (mkSystem w pend)
  = mkSystem (put_all pend w) [].
Proof.
  revert w. induction pend as [|c pend IH]; intros w; [reflexivity|].
  simpl List.length. simpl repeat. unfold do_steps. simpl fold_left.
  apply IH.
Qed.

Lemma put_all_frame (cs : list chunk) (w : UpdateWindow) :
  buffer (put_all cs w) = buffer w
  /\ stdout (put_all cs w) = stdout w
  /\ empty_msg (put_all cs w) = empty_msg w
  /\ output_msg (put_all cs w) = output_msg w
  /\ ignore_stderr (put_all cs w) = ignore_stderr w
  /\ controls_enabled (put_all cs w) = controls_enabled w
  /\ stderr_queue (put_all cs w) = stderr_queue w ++ stderr_texts cs.
Proof.
  revert w. induction cs as [|c cs IH]; intros w.
  - simpl. rewrite app_nil_r. repeat split.
  - unfold put_all in *. simpl fold_left.
    destruct (IH (put c w)) as (Hb & Hs & He & Ho & Hi & Hc & Hq).
    rewrite Hb, Hs, He, Ho, Hi, Hc, Hq, stderr_texts_cons.
    unfold put. destruct (chunk_queue c); simpl; repeat split.
    now rewrite <- app_assoc.
Qed.

(** A call that takes a terminal chunk enables the controls, unless
    line 223 is reached with no empty-output message. *)
Lemma update_buffer_terminal_unlocks (w : UpdateWindow) (text : string)
    (q : list string) (n : Z) :
  stdout_queue w = text :: q -> exit_code_of text = Some n ->
  empty_msg w <> None \/ output_msg w = None ->
  exists w',
    update_buffer w = Returned w'
    /\ controls_enabled w' = true
    /\ spinner w' = false.
Proof.
  intros Hq Hcode Hmsg.
  destruct (Z.eq_dec n 0) as [->|Hn].
  - unfold update_buffer.
    rewrite (update_buffer_stdout_exit w text q 0 Hq Hcode).
    unfold classify_exit. simpl negb. cbv iota.
    change (stdout (set_stdout_queue q w)) with (stdout w).
    change (empty_msg (set_stdout_queue q w)) with (empty_msg w).
    change (output_msg (set_stdout_queue q w)) with (output_msg w).
    assert (Hfin : forall w1 : UpdateWindow,
              controls_enabled w1 = true -> spinner w1 = false ->
              exists w', Returned (update_buffer_stderr w1) = Returned w'
                         /\ controls_enabled w' = true
                         /\ spinner w' = false).
    { intros w1 H1 H2. eexists. split; [reflexivity|].
      rewrite controls_update_buffer_stderr. split; [exact H1|].
      unfold update_buffer_stderr.
      destruct (stderr_queue w1); [exact H2|].
      simpl. now destruct (ignore_stderr w1). }
    destruct (String.eqb (stdout w) ""), (empty_msg w) as [m|],
      (output_msg w) as [o|]; simpl; try (apply Hfin; reflexivity).
    destruct Hmsg as [H|H]; congruence.
  - destruct (update_buffer_exit_nonzero w text q n Hq Hcode Hn)
      as (w' & Hu & _ & Hc & Hsp & _).
    exists w'. auto.
Qed.

(** X11: a run from start to end.  After [execute] on a window with an
    empty stdout queue, for a child whose exit status [n >= 0] shows at
    a ready key and whose output is never taken for a terminal chunk:
    once the worker has put its chunks, one call of [update_buffer] per
    stdout chunk and one more for the exit chunk leave the stdout queue
    empty, [self.stdout] equal to the stdout chunks concatenated, their
    lines rendered in order after the line of [execute], and (when an
    empty-output message is configured or no non-empty-output message
    is) the controls enabled and the spinner stopped. *)
Theorem X11_run_to_completion (os : OS) (args : list string) (ign : bool)
    (omsg emsg : option string) (env : list (string * string))
    (clr : bool) (w0 : UpdateWindow) (sched : schedule)
    (before after : list ready) (r : ready) (raw : string) (n : Z) :
  Popen os args (dict_merge (environ os) env) = Child sched ->
  List.concat sched = before ++ r :: after ->
  forallb running before = true ->
  read1 r = Some raw ->
  poll r = Some n ->
  0 <= n ->
  stdout_queue w0 = [] ->
  forallb (fun t => negb (is_terminal t))
    (stdout_texts (flat_map text_read (before ++ [r]))) = true ->
  emsg <> None \/ omsg = None ->
  let data := flat_map text_read (before ++ [r]) in
  let w1 := fst (execute args ign omsg emsg env clr w0) in
  let s :=
    do_steps (repeat WorkerPut (List.length data + 1)
              ++ repeat TimerTick (List.length (stdout_texts data) + 1))
      (start os (execute args ign omsg emsg env clr w0)) in
  pending s = []
  /\ stdout_queue (window s) = []
  /\ stdout (window s) = concat_texts (stdout_texts data)
  /\ (exists final,
        buffer (window s)
        = buffer w1
          ++ render_ticks ign (stdout_texts data)
               (stderr_queue w0 ++ stderr_texts data)
          ++ final)
  /\ controls_enabled (window s) = true
  /\ spinner (window s) = false.
Proof.
  intros Hos Hc Hb Hr Hp Hn Hq0 Hdata Hmsg data w1 s.
  assert (Hrun : run os args env = (data ++ [Exit n], Finished)).
  { unfold run. rewrite Hos.
    apply (while_not_done_exit sched before after r raw n Hc Hb Hr Hp). }
  assert (Hstart : start os (execute args ign omsg emsg env clr w0)
                   = mkSystem w1 (data ++ [Exit n])).
  { unfold start. simpl thread_args. simpl thread_env. now rewrite Hrun. }
  assert (Hlen : (List.length data + 1 = List.length (data ++ [Exit n]))%nat)
    by (rewrite length_app; reflexivity).
  subst s. rewrite Hstart, do_steps_app, Hlen, worker_puts_all.
  set (w2 := put_all (data ++ [Exit n]) w1).
  destruct (put_all_frame (data ++ [Exit n]) w1)
    as (Hb2 & Hs2 & He2 & Ho2 & Hi2 & Hc2 & Hq2).
  fold w2 in Hb2, Hs2, He2, Ho2, Hi2, Hc2, Hq2.
  assert (Hsq2 : stdout_queue w2
                 = stdout_texts data ++ [chunk_text (Exit n)]).
  { subst w2. rewrite stdout_queue_put_all, stdout_texts_app.
    subst w1. simpl. destruct clr; simpl; now rewrite Hq0. }
  assert (Hst : repeat TimerTick (List.length (stdout_texts data) + 1)
                = repeat TimerTick (List.length (stdout_texts data))
                  ++ [TimerTick]).
  { now rewrite repeat_app. }
  rewrite Hst, do_steps_app.
  destruct (ticks_render_in_order (stdout_texts data) w2
              [chunk_text (Exit n)] [] Hsq2 Hdata)
    as (w3 & -> & Hb3 & Hs3 & Hq3 & _ & _ & He3 & Ho3 & _).
  unfold do_steps. cbn [fold_left do_step pending window].
  destruct (update_buffer_terminal_unlocks w3 (chunk_text (Exit n)) [] n Hq3)
    as (w4 & Hu & Hc4 & Hsp4).
  { now apply exit_code_of_Exit. }
  { rewrite He3, Ho3, He2, Ho2. subst w1. exact Hmsg. }
  destruct (update_buffer_terminal_frame w3 (chunk_text (Exit n)) [] Hq3)
    as (Hs4 & Hq4 & _).
  { unfold is_terminal. now rewrite fullmatch_EXIT_format_d. }
  destruct (update_buffer_appends w3) as (final & Hb4).
  rewrite Hu in *. simpl window_of in *.
  split; [reflexivity|]. split; [exact Hq4|].
  split.
  { rewrite Hs4, Hs3, Hs2. subst w1. reflexivity. }
  split; [|split; [exact Hc4 | exact Hsp4]].
  exists final. rewrite Hb4, Hb3, Hb2, Hi2, Hq2, stderr_texts_app.
  subst w1. simpl.
  replace (stderr_texts [Exit n]) with (@nil string) by reflexivity.
  rewrite app_nil_r, <- !app_assoc.
  destruct clr; reflexivity.
Qed.

(** The update command with a child that writes a line on each pipe and
    exits with code 0. *)
Lemma X11_run_to_completion_witness :
  let s :=
    do_steps (repeat WorkerPut 3 ++ repeat TimerTick 2)
      (start os_chatty (update true init_window)) in
  pending s = []
  /\ stdout_queue (window s) = []
  /\ stdout (window s) = "Hit:1"
  /\ controls_enabled (window s) = true
  /\ spinner (window s) = false.
Proof.
  destruct (X11_run_to_completion os_chatty
              ["/usr/bin/apt"; "-y"; "update"] false None None
              [("DEBIAN_FRONTEND", "noninteractive")] true init_window
              chatty_schedule
              [mkReady p_stdout (Some ("Hit:1" ++ newline)%string) None;
               mkReady p_stderr (Some ("W: slow" ++ newline)%string) None]
              [] (mkReady p_stdout (Some "") (Some 0)) "" 0
              eq_refl eq_refl eq_refl eq_refl eq_refl (Z.le_refl 0)
              eq_refl eq_refl (or_intror eq_refl))
    as (Hp & Hq & Hs & _ & Hc & Hsp).
  intros s.
  exact (conj Hp (conj Hq (conj Hs (conj Hc Hsp)))).
Defined.

End InOrder.

(** ** execute and the queues *)

Section ExecuteAndQueues.

Lemma spinner_update_buffer_stderr (w : UpdateWindow) :
  spinner (update_buffer_stderr w) = spinner w.
Proof.
  unfold update_buffer_stderr.
  destruct (stderr_queue w); [reflexivity|].
  simpl. now destruct (ignore_stderr w).
Qed.

(** X12: [execute] and a put of a worker commute.  [execute] neither
    reads nor empties the queues, so a chunk put before it, or while it
    runs, is on the queue of the new command as if put after it. *)
Theorem X12_execute_commutes_with_put (c : chunk) (args : list string)
    (ign : bool) (omsg emsg : option string)
    (env : list (string * string)) (clr : bool) (w : UpdateWindow) :
  fst (execute args ign omsg emsg env clr (put c w))
  = put c (fst (execute args ign omsg emsg env clr w))
  /\ stdout_queue (fst (execute args ign omsg emsg env clr w))
     = stdout_queue w
  /\ stderr_queue (fst (execute args ign omsg emsg env clr w))
     = stderr_queue w.
Proof.
  unfold put. destruct (chunk_queue c), clr; repeat split.
Qed.

(** X13: a terminal string left on the stdout queue ends the next
    command for the poller.  When [execute] is called while the head of
    the stdout queue matches the pattern of line 208, the first call of
    [update_buffer] returns with the controls enabled and the spinner
    stopped, whatever the child of the new command does; for a code
    other than 0 it shows the ERROR line first. *)
Theorem X13_stale_terminal_unlocks_next_command (args : list string)
    (ign : bool) (omsg emsg : option string)
    (env : list (string * string)) (clr : bool) (w : UpdateWindow)
    (text : string) (q : list string) (n : Z) :
  stdout_queue w = text :: q ->
  exit_code_of text = Some n ->
  exists w',
    update_buffer (fst (execute args ign omsg emsg env clr w)) = Returned w'
    /\ controls_enabled w' = true
    /\ spinner w' = false
    /\ stdout_queue w' = q
    /\ (n <> 0 ->
        buffer w'
        = buffer (fst (execute args ign omsg emsg env clr w))
          ++ mesg "ERROR" ("Command exited with code " ++ format_d n)%string
          ++ stderr_lines (fst (execute args ign omsg emsg env clr w))).
Proof.
  intros Hq Hcode.
  set (w1 := fst (execute args ign omsg emsg env clr w)).
  assert (Hq1 : stdout_queue w1 = text :: q)
    by (subst w1; destruct clr; exact Hq).
  assert (Ht : is_terminal text = true).
  { unfold is_terminal. unfold exit_code_of in Hcode.
    now destruct (fullmatch_EXIT text). }
  destruct (update_buffer_terminal_frame w1 text q Hq1 Ht) as (_ & Hq' & _).
  destruct (Z.eq_dec n 0) as [->|Hn].
  - assert (Hu : update_buffer w1
                 = Returned (update_buffer_stderr
                     (match emsg with
                      | Some m =>
                          unlock (append_mesg "INFO" m
                                    (set_stdout_queue q w1))
                      | None => unlock (set_stdout_queue q w1)
                      end))).
    { unfold update_buffer.
      rewrite (update_buffer_stdout_exit w1 text q 0 Hq1 Hcode).
      unfold classify_exit. simpl negb. cbv iota.
      subst w1. destruct clr, emsg; reflexivity. }
    rewrite Hu in Hq'. simpl window_of in Hq'.
    eexists. split; [exact Hu|].
    rewrite controls_update_buffer_stderr.
    split; [now destruct emsg|]. split.
    + rewrite spinner_update_buffer_stderr. now destruct emsg.
    + split; [exact Hq' | congruence].
  - destruct (update_buffer_exit_nonzero w1 text q n Hq1 Hcode Hn)
      as (w' & Hu & Hb & Hc & Hsp & _).
    rewrite Hu in Hq'. exists w'. repeat split; auto.
Qed.

(** The list command started while the exit chunk of an earlier
    command is still queued. *)
Lemma X13_stale_terminal_unlocks_next_command_witness :
  exists w',
    update_buffer
      (fst (list_upgradable true (put (Exit 0) init_window))) = Returned w'
    /\ controls_enabled w' = true
    /\ spinner w' = false
    /\ stdout_queue w' = [].
Proof.
  destruct (X13_stale_terminal_unlocks_next_command
              ["/usr/bin/apt"; "-qq"; "list"; "--upgradable"] true
              (Some "Found the following package upgrades:")
              (Some "Comando executado!") [] true
              (put (Exit 0) init_window) "EXIT 0" [] 0 eq_refl eq_refl)
    as (w' & Hu & Hc & Hsp & Hq & _).
  exists w'. repeat split; assumption.
Defined.

End ExecuteAndQueues.

(** ** The start of the application *)

Section Startup.

(** X14: [on_activate] calls [update()] and then [list(clear=False)]
    without waiting, so both workers feed one window that carries the
    settings of the list command: stderr suppressed and both messages
    configured, with the line of the list command above the line of
    the update command in the buffer.  However the puts of the two
    workers and the calls of [update_buffer] interleave, no STDERR line
    is ever rendered, also for what the update child writes on stderr;
    the text is only accumulated in [self.stderr]. *)
Theorem X14_startup_runs_update_under_list_settings (os : OS)
    (merged : list chunk) (sts : list step) :
  shuffle
    (fst (run os (thread_args (fst (snd on_activate)))
            (thread_env (fst (snd on_activate)))))
    (fst (run os (thread_args (snd (snd on_activate)))
            (thread_env (snd (snd on_activate)))))
    merged ->
  thread_args (fst (snd on_activate)) = ["/usr/bin/apt"; "-y"; "update"]
  /\ thread_args (snd (snd on_activate))
     = ["/usr/bin/apt"; "-qq"; "list"; "--upgradable"]
  /\ ignore_stderr (fst on_activate) = true
  /\ empty_msg (fst on_activate) = Some "Comando executado!"
  /\ output_msg (fst on_activate)
     = Some "Found the following package upgrades:"
  /\ buffer (fst on_activate)
     = mesg "INFO"
         ("Running command " ++ dquote
          ++ "/usr/bin/apt -qq list --upgradable" ++ dquote ++ " ...")%string
       ++ mesg "INFO"
            ("Running command " ++ dquote ++ "/usr/bin/apt -y update"
             ++ dquote ++ " ...")%string
  /\ count_level "STDERR"
       (buffer (window (do_steps sts (mkSystem (fst on_activate) merged))))
     = 0%nat
  /\ stderr_total (do_steps sts (mkSystem (fst on_activate) merged))
     = concat_texts (stderr_texts merged).
Proof.
  intros _.
  destruct (suppressed_steps sts (mkSystem (fst on_activate) merged)
              eq_refl) as (_ & Hc & Ht).
  repeat split; [exact Hc | exact Ht].
Qed.

(** Both children write a line on each pipe and exit with code 0; the
    update worker puts its chunks first. *)
Lemma X14_startup_runs_update_under_list_settings_witness :
  let puts := [Data p_stdout "Hit:1"; Data p_stderr "W: slow"; Exit 0] in
  count_level "STDERR"
    (buffer (window (do_steps (repeat WorkerPut 6 ++ repeat TimerTick 6)
                       (mkSystem (fst on_activate) (puts ++ puts)))))
  = 0%nat
  /\ stderr_total (do_steps (repeat WorkerPut 6 ++ repeat TimerTick 6)
                     (mkSystem (fst on_activate) (puts ++ puts)))
     = "W: slowW: slow".
Proof.
  intros puts.
  destruct (X14_startup_runs_update_under_list_settings os_chatty
              (puts ++ puts) (repeat WorkerPut 6 ++ repeat TimerTick 6))
    as (_ & _ & _ & _ & _ & _ & Hc & Ht).
  - repeat constructor.
  - split; [exact Hc | exact Ht].
Defined.

End Startup.

(** ** The environment of the child *)

Section Environment.

Lemma dict_get_set (k v k' : string) (d : list (string * string)) :
  dict_get k' (dict_set k v d)
  = if String.eqb k' k then Some v else dict_get k' d.
Proof.
  induction d as [|[k0 v0] d IH]; simpl.
  - reflexivity.
  - destruct (String.eqb k k0) eqn:Hk; simpl.
    + apply String.eqb_eq in Hk. subst k0.
      now destruct (String.eqb k' k).
    + rewrite IH. destruct (String.eqb k' k0) eqn:Hk0; [|reflexivity].
      apply String.eqb_eq in Hk0. subst k0.
      destruct (String.eqb k' k) eqn:Hk'; [|reflexivity].
      apply String.eqb_eq in Hk'. subst k'.
      rewrite String.eqb_refl in Hk. discriminate.
Qed.

(** X15: the environment [run] hands to [Popen], line 135.  An entry
    of the overlay replaces the inherited value of its variable and
    leaves every other variable as inherited.  So [update] and
    [upgrade] always run the child with DEBIAN_FRONTEND set to
    noninteractive, whatever the inherited environment says, and
    [list] runs it in the inherited environment as it is. *)
Theorem X15_child_environment (os : OS) (clr : bool) (w : UpdateWindow)
    (k : string) :
  dict_get k (dict_merge (environ os) (thread_env (snd (update clr w))))
  = (if String.eqb k "DEBIAN_FRONTEND" then Some "noninteractive"
     else dict_get k (environ os))
  /\ dict_get k (dict_merge (environ os) (thread_env (snd (upgrade w))))
     = (if String.eqb k "DEBIAN_FRONTEND" then Some "noninteractive"
        else dict_get k (environ os))
  /\ dict_merge (environ os) (thread_env (snd (list_upgradable clr w)))
     = environ os
  /\ forall (d : list (string * string)) (k0 v0 : string),
       dict_get k (dict_merge d [(k0, v0)])
       = (if String.eqb k k0 then Some v0 else dict_get k d).
Proof.
  repeat split; try apply dict_get_set.
  intros d k0 v0. apply dict_get_set.
Qed.

End Environment.

(** ** Escaping *)

Section Escaping.

Lemma occurs_append (c : ascii) (a b : string) :
  occurs c (a ++ b)%string = occurs c a || occurs c b.
Proof.
  induction a as [|x a IH]; simpl; [reflexivity|].
  now rewrite IH, orb_assoc.
Qed.

Lemma html_escape_cons (c : ascii) (s : string) :
  html_escape (String c s) = (escape_char c ++ html_escape s)%string.
Proof.
  destruct c as [[|] [|] [|] [|] [|] [|] [|] [|]]; reflexivity.
Qed.

Lemma occurs_escape_char (x c : ascii) :
  x = "<"%char \/ x = ">"%char \/ x = ascii_of_nat 34 \/ x = "'"%char ->
  occurs x (escape_char c) = false.
Proof.
  intros Hx. unfold escape_char.
  destruct (Ascii.eqb c "&") eqn:H1;
    [destruct Hx as [ -> | [ -> | [ -> | -> ] ] ]; reflexivity|].
  destruct (Ascii.eqb c "<") eqn:H2;
    [destruct Hx as [ -> | [ -> | [ -> | -> ] ] ]; reflexivity|].
  destruct (Ascii.eqb c ">") eqn:H3;
    [destruct Hx as [ -> | [ -> | [ -> | -> ] ] ]; reflexivity|].
  destruct (Ascii.eqb c (ascii_of_nat 34)) eqn:H4;
    [destruct Hx as [ -> | [ -> | [ -> | -> ] ] ]; reflexivity|].
  destruct (Ascii.eqb c "'") eqn:H5;
    [destruct Hx as [ -> | [ -> | [ -> | -> ] ] ]; reflexivity|].
  cbn [occurs]. rewrite orb_false_r.
  destruct Hx as [ -> | [ -> | [ -> | -> ] ] ]; assumption.
Qed.

(** X16: the text [insert_color] puts inside the span, lines 98 to
    102.  Whatever the text, its escaped form contains none of the
    characters less-than, greater-than, double quote and apostrophe,
    so it cannot close or open a tag; and a text without those and
    without an ampersand is left as it is. *)
Theorem X16_escaped_text_has_no_markup (text : string) :
  occurs "<"%char (html_escape text) = false
  /\ occurs ">"%char (html_escape text) = false
  /\ occurs (ascii_of_nat 34) (html_escape text) = false
  /\ occurs "'"%char (html_escape text) = false
  /\ (occurs "&"%char text = false ->
      occurs "<"%char text = false ->
      occurs ">"%char text = false ->
      occurs (ascii_of_nat 34) text = false ->
      occurs "'"%char text = false ->
      html_escape text = text).
Proof.
  induction text as [|c text (IH1 & IH2 & IH3 & IH4 & IH5)].
  - repeat split.
  - rewrite html_escape_cons, !occurs_append, IH1, IH2, IH3, IH4,
      !occurs_escape_char by auto.
    repeat split.
    cbn [occurs]. intros H1 H2 H3 H4 H5.
    apply orb_false_elim in H1, H2, H3, H4, H5.
    destruct H1 as [A1 B1], H2 as [A2 B2], H3 as [A3 B3], H4 as [A4 B4],
      H5 as [A5 B5].
    unfold escape_char. rewrite A1, A2, A3, A4, A5. simpl.
    f_equal. now apply IH5.
Qed.

(** The prefix of an ERROR line. *)
Lemma X16_escaped_text_has_no_markup_witness :
  html_escape "ERROR: " = "ERROR: ".
Proof.
  apply (X16_escaped_text_has_no_markup "ERROR: "); reflexivity.
Defined.

End Escaping.

(** ** Empty queues *)

Section EmptyQueues.

(** X17: with both queues empty a call of [update_buffer] returns and
    changes nothing: [queue.Empty] is passed over twice.  So however
    often the timer fires before the worker puts its first chunk, the
    window stays as [execute] left it. *)
Theorem X17_poller_idle_on_empty_queues (n : nat) (w : UpdateWindow)
    (pend : list chunk) :
  stdout_queue w = [] -> stderr_queue w = [] ->
  update_buffer w = Returned w
  /\ do_steps (repeat TimerTick n) (mkSystem w pend) = mkSystem w pend.
Proof.
  intros Hq He.
  assert (Hu : update_buffer w = Returned w).
  { rewrite (update_buffer_idle w Hq). unfold update_buffer_stderr.
    now rewrite He. }
  split; [exact Hu|].
  induction n as [|n IH]; [reflexivity|].
  simpl repeat. unfold do_steps in *. simpl fold_left.
  rewrite Hu. exact IH.
Qed.

(** The window of the upgrade command before the child has written
    anything. *)
Lemma X17_poller_idle_on_empty_queues_witness :
  update_buffer (fst (upgrade init_window))
  = Returned (fst (upgrade init_window))
  /\ do_steps (repeat TimerTick 5) (mkSystem (fst (upgrade init_window)) [])
     = mkSystem (fst (upgrade init_window)) [].
Proof.
  apply (X17_poller_idle_on_empty_queues 5 (fst (upgrade init_window)) []);
    reflexivity.
Defined.

End EmptyQueues.
